(** * VeriCert backend: the untrusted-document intake pipeline

    A shallow embedding of [lib/pdf-validator.ts] (class [PDFValidator]:
    [validate], [securityScan], [extractMetadata]) and of
    [routes/verify.ts] (the [POST /verify] handler, [getStatusMessage],
    [mapVerificationDetails]), with the properties the design document
    states about them.

    JavaScript strings are sequences of UTF-16 code units, buffers are
    sequences of bytes, values typed [any] are an inductive type of
    JavaScript values, and the handler is written in a small monad that
    carries thrown exceptions and a log of the calls it makes. *)

From Stdlib Require Import ZArith NArith List Ascii Bool Lia.
From Stdlib.Strings Require Import Byte.
From Stdlib Require String DecimalString.
Import ListNotations String.StringSyntax.

Delimit Scope string_scope with string.

Local Open Scope Z_scope.

(* ================================================================== *)
(** * Strings and buffers *)
(* ================================================================== *)

(** A JavaScript string: its UTF-16 code units. *)
Definition JSString := list N.

(** The string literal [s] of the source (all literals are 7-bit). *)
Definition jstr (s : String.string) : JSString :=
  map N_of_ascii (String.list_ascii_of_string s).

Arguments jstr s%_string : simpl never.

(** A Node.js [Buffer]. *)
Definition Buffer := list byte.

(** [Buffer.from(s)] for a 7-bit literal. *)
Definition Buffer_from (s : String.string) : Buffer :=
  String.list_byte_of_string s.

Arguments Buffer_from s%_string.

(** [buffer.length]. *)
Definition buffer_length (b : Buffer) : Z := Z.of_nat (length b).

(** [buffer.subarray(0, n)]: the first [n] bytes, fewer when the buffer
    is shorter. *)
Definition subarray0 (b : Buffer) (n : nat) : Buffer := firstn n b.

(** [a.equals(b)]: same length and same bytes. *)
Fixpoint buffer_equals (a b : Buffer) : bool :=
  match a, b with
  | [], [] => true
  | x :: a', y :: b' => Byte.eqb x y && buffer_equals a' b'
  | _, _ => false
  end.

(** [s === t] on strings. *)
Fixpoint jseqb (s t : JSString) : bool :=
  match s, t with
  | [], [] => true
  | c :: s', d :: t' => N.eqb c d && jseqb s' t'
  | _, _ => false
  end.

(** [s.startsWith(pat)]. *)
Fixpoint startsWith (s pat : JSString) : bool :=
  match pat, s with
  | [], _ => true
  | p :: pat', c :: s' => N.eqb c p && startsWith s' pat'
  | _ :: _, [] => false
  end.

(** [s.includes(pat)]: [pat] starts at some position of [s]. *)
Fixpoint includes (s pat : JSString) : bool :=
  startsWith s pat ||
  match s with
  | [] => false
  | _ :: s' => includes s' pat
  end.

(** [s.endsWith(suf)]. *)
Definition endsWith (s suf : JSString) : bool :=
  (length suf <=? length s)%nat &&
  jseqb (skipn (length s - length suf) s) suf.

(** The decimal numeral of an integer, as [String(n)] prints an integral
    double below 1e21. *)
Definition decimal (z : Z) : JSString :=
  jstr (DecimalString.NilZero.string_of_int (Z.to_int z)).

(** Two lower-case hexadecimal digits per byte: [buf.toString('hex')]. *)
Definition hex_digit (n : N) : N :=
  if (n <? 10)%N then (48 + n)%N else (87 + n)%N.

Definition toString_hex (b : Buffer) : JSString :=
  flat_map (fun x => let n := Byte.to_N x in
                     [hex_digit (n / 16)%N; hex_digit (n mod 16)%N]) b.

(* ================================================================== *)
(** * Values typed [any] *)
(* ================================================================== *)

Section Values.
Variable Number : Type.

(** A JavaScript value as [JSON.parse] and the pdf.js info dictionary
    produce them, and [undefined]. An object is its own properties in
    order; reading a key takes its first binding. *)
#[warnings="-register-all"]
Inductive JSValue : Type :=
| JUndefined
| JNull
| JBool (b : bool)
| JNum (n : Number)
| JStr (s : JSString)
| JArr (elems : list JSValue)
| JObj (props : list (JSString * JSValue)).

End Values.

Arguments JUndefined {Number}.
Arguments JNull {Number}.
Arguments JBool {Number} b.
Arguments JNum {Number} n.
Arguments JStr {Number} s.
Arguments JArr {Number} elems.
Arguments JObj {Number} props.

(** A thrown exception: an [Error] object with its message. *)
Record Exn := { message : JSString }.

(** What a call that may throw does. *)
Inductive Outcome (A : Type) : Type :=
| Returned (a : A)
| Thrown (e : Exn).

Arguments Returned {A} a.
Arguments Thrown {A} e.

(** The parts of the platform the code calls and the repository does not
    contain: JavaScript numbers (IEEE doubles) with the conversions the
    code applies to them, Unicode lower-casing, UTF-8 decoding, the
    pdf.js parser and the process environment. *)
Class Runtime : Type := {
  Number : Type;
  (** the double of an integer *)
  number_of_Z : Z -> Number;
  (** [ToBoolean] on numbers: false on zero and NaN *)
  number_toBoolean : Number -> bool;
  (** [n > 0] *)
  number_gt0 : Number -> bool;
  (** [String(n)] *)
  number_toString : Number -> JSString;
  (** [Number(s) > 0] *)
  string_gt0 : JSString -> bool;
  (** [s.toLowerCase()] *)
  toLowerCase : JSString -> JSString;
  (** [buffer.toString('utf-8')] *)
  toString_utf8 : Buffer -> JSString;
  (** [(await getDocument({data}).promise).getMetadata()], then [.info]:
      the info value, or the exception the parser throws *)
  pdfjs_info : Buffer -> Outcome (JSValue Number);
  (** [process.env.ACADCERT_API_URL] *)
  env_ACADCERT_API_URL : option JSString;
  (** an integer as a double is positive when the integer is *)
  number_gt0_of_Z : forall z, number_gt0 (number_of_Z z) = (0 <? z)
}.

(* ================================================================== *)
(** * PDFValidator.validate *)
(* ================================================================== *)

Record ValidationResult := {
  valid : bool;
  error : option JSString
}.

Definition MAX_FILE_SIZE : Z := 50 * 1024 * 1024.
Definition PDF_MAGIC_NUMBER : Buffer := Buffer_from "%PDF-".

Definition error_too_large : JSString :=
  jstr "File too large. Maximum size is "
  ++ decimal (MAX_FILE_SIZE / 1024 / 1024) ++ jstr "MB".
Definition error_empty : JSString := jstr "File is empty".
Definition error_format : JSString :=
  jstr "Invalid file format. Only PDF files are accepted.".
Definition error_extension : JSString := jstr "File must have .pdf extension".

Definition invalid (msg : JSString) : ValidationResult :=
  {| valid := false; error := Some msg |}.

(** Sequencing of calls that may throw. *)
Definition obind {A B : Type} (o : Outcome A) (k : A -> Outcome B) : Outcome B :=
  match o with
  | Returned a => k a
  | Thrown e => Thrown e
  end.

Notation "'let!' x ':=' c 'in' k" := (obind c (fun x => k))
  (at level 10, x name, c at level 100, k at level 200).

(* ================================================================== *)
(** * The log of calls and the handler's monad *)
(* ================================================================== *)

(** The calls the handler and [extractMetadata] make, in the order they
    are made. [EvValidate], [EvSecurityScan] and [EvExtractMetadata] are
    the three [PDFValidator] stages, [EvFetch] the outbound call to the
    authority with its URL. Console and logger calls carry no text. *)
Inductive Event : Type :=
| EvRequestFile
| EvToBuffer
| EvValidate
| EvSecurityScan
| EvExtractMetadata
| EvPdfjs
| EvFetch (url : JSString)
| EvResponseJson
| EvConsoleLog
| EvConsoleError
| EvLogError.

(** A computation: from the log so far to what it returns or throws and
    the log extended by its calls. *)
Definition M (A : Type) : Type := list Event -> Outcome A * list Event.

Definition ret {A : Type} (a : A) : M A := fun log => (Returned a, log).

Definition bind {A B : Type} (m : M A) (k : A -> M B) : M B :=
  fun log =>
    match m log with
    | (Returned a, log') => k a log'
    | (Thrown e, log') => (Thrown e, log')
    end.

(** [try { m } catch (e) { h e }]. *)
Definition try_catch {A : Type} (m : M A) (h : Exn -> M A) : M A :=
  fun log =>
    match m log with
    | (Thrown e, log') => h e log'
    | r => r
    end.

Definition emit (ev : Event) : M unit := fun log => (Returned tt, log ++ [ev]).

(** A call with a given outcome, logged as [ev]. *)
Definition call {A : Type} (ev : Event) (o : Outcome A) : M A :=
  fun log => (o, log ++ [ev]).

Definition lift {A : Type} (o : Outcome A) : M A := fun log => (o, log).

Notation "x <- c ;; k" := (bind c (fun x => k))
  (at level 61, c at next level, right associativity).
Notation "c ;;; k" := (bind c (fun _ => k))
  (at level 61, right associativity).

(* ================================================================== *)
(** * PDFValidator *)
(* ================================================================== *)

Record ScanResult := {
  safe : bool;
  threats : option (list JSString)
}.

Section Program.
Context {RT : Runtime}.

Abbreviation Value := (JSValue Number).

(** ** validate *)

Definition validate (buffer : Buffer) (filename : JSString) : ValidationResult :=
  if buffer_length buffer >? MAX_FILE_SIZE then invalid error_too_large
  else if buffer_length buffer =? 0 then invalid error_empty
  else
    let magicNumber := subarray0 buffer 5 in
    if negb (buffer_equals magicNumber PDF_MAGIC_NUMBER) then invalid error_format
    else if negb (endsWith (toLowerCase filename) (jstr ".pdf")) then
      invalid error_extension
    else {| valid := true; error := None |}.

(** ** securityScan *)

(** [threats.push(t)] under [if (c)]. *)
Definition push_if (c : bool) (t : JSString) (threats : list JSString) : list JSString :=
  if c then threats ++ [t] else threats.

Definition securityScan (buffer : Buffer) : ScanResult :=
  let pdfText := toLowerCase (toString_utf8 buffer) in
  let threats0 : list JSString := [] in
  let threats1 :=
    push_if (includes pdfText (jstr "/javascript") || includes pdfText (jstr "/js"))
            (jstr "JavaScript detected") threats0 in
  let threats2 :=
    push_if (includes pdfText (jstr "/aa") || includes pdfText (jstr "/openaction"))
            (jstr "Auto-action detected") threats1 in
  let threats3 :=
    push_if (includes pdfText (jstr "/launch"))
            (jstr "Launch action detected") threats2 in
  let threats4 :=
    push_if (includes pdfText (jstr "/submitform"))
            (jstr "Form submission detected") threats3 in
  {| safe := (length threats4 =? 0)%nat;
     threats := if (0 <? length threats4)%nat then Some threats4 else None |}.

(** ** Operations on values typed [any] *)

(** [ToBoolean]. *)
Definition truthy (v : Value) : bool :=
  match v with
  | JUndefined | JNull => false
  | JBool b => b
  | JNum n => number_toBoolean n
  | JStr [] => false
  | JStr (_ :: _) => true
  | JArr _ | JObj _ => true
  end.

(** [a || b]. *)
Definition js_or (a b : Value) : Value := if truthy a then a else b.

(** [parts.join(",")]. *)
Fixpoint join_comma (parts : list JSString) : JSString :=
  match parts with
  | [] => []
  | [p] => p
  | p :: rest => p ++ jstr "," ++ join_comma rest
  end.

(** Has the object an own property [k]? *)
Definition has_own (k : JSString) (props : list (JSString * Value)) : bool :=
  existsb (fun kv => jseqb k (fst kv)) props.

(** The [TypeError] of converting an object none of whose [toString]
    and [valueOf] gives a primitive. *)
Definition TypeError_primitive : Exn :=
  {| message := jstr "Cannot convert object to primitive value" |}.

(** [String(v)], as a template literal converts its holes. An array is
    its elements joined by commas, converted from left to right, [null]
    and [undefined] elements printing as nothing. An object without an
    own [toString] prints through [Object.prototype.toString]. An own
    [toString] hides that method and, being data, cannot be called; the
    inherited [valueOf] then gives the object back, or an own [valueOf]
    cannot be called either: the conversion throws. *)
Fixpoint toStringJS (v : Value) : Outcome JSString :=
  match v with
  | JUndefined => Returned (jstr "undefined")
  | JNull => Returned (jstr "null")
  | JBool true => Returned (jstr "true")
  | JBool false => Returned (jstr "false")
  | JNum n => Returned (number_toString n)
  | JStr s => Returned s
  | JArr elems =>
      let! parts :=
        (fix each (l : list Value) : Outcome (list JSString) :=
           match l with
           | [] => Returned []
           | e :: rest =>
               let! part := match e with
                            | JUndefined | JNull => Returned []
                            | _ => toStringJS e
                            end in
               let! parts := each rest in
               Returned (part :: parts)
           end) elems in
      Returned (join_comma parts)
  | JObj props =>
      if has_own (jstr "toString") props then Thrown TypeError_primitive
      else Returned (jstr "[object Object]")
  end.

(** The first binding of [k] among an object's own properties. *)
Fixpoint lookup (k : JSString) (props : list (JSString * Value)) : Value :=
  match props with
  | [] => JUndefined
  | (k', v) :: rest => if jseqb k k' then v else lookup k rest
  end.

(** The [TypeError] of reading property [k] of [undefined] or [null]
    ([what] names which). *)
Definition TypeError_read (what k : JSString) : Exn :=
  {| message := jstr "Cannot read properties of " ++ what
                ++ jstr " (reading '" ++ k ++ jstr "')" |}.

(** [v.k] for a named key [k] (none of the keys the code reads is an
    array index or a method of a prototype): a [TypeError] on [null] and
    [undefined], the own property of an object, [length] of an array or
    a string, [undefined] otherwise. *)
Definition get (v : Value) (k : JSString) : Outcome Value :=
  match v with
  | JUndefined => Thrown (TypeError_read (jstr "undefined") k)
  | JNull => Thrown (TypeError_read (jstr "null") k)
  | JObj props => Returned (lookup k props)
  | JArr elems =>
      Returned (if jseqb k (jstr "length")
                then JNum (number_of_Z (Z.of_nat (length elems)))
                else JUndefined)
  | JStr s =>
      Returned (if jseqb k (jstr "length")
                then JNum (number_of_Z (Z.of_nat (length s)))
                else JUndefined)
  | JBool _ | JNum _ => Returned JUndefined
  end.

(** [v?.k]. *)
Definition get_opt (v : Value) (k : JSString) : Outcome Value :=
  match v with
  | JUndefined | JNull => Returned JUndefined
  | _ => get v k
  end.

(** [v[0]]. *)
Definition get0 (v : Value) : Outcome Value :=
  match v with
  | JUndefined => Thrown (TypeError_read (jstr "undefined") (jstr "0"))
  | JNull => Thrown (TypeError_read (jstr "null") (jstr "0"))
  | JObj props => Returned (lookup (jstr "0") props)
  | JArr elems => Returned (nth 0 elems JUndefined)
  | JStr (c :: _) => Returned (JStr [c])
  | JStr [] => Returned JUndefined
  | JBool _ | JNum _ => Returned JUndefined
  end.

(** [v > 0]: [v] converted to a number, an array or object through its
    string (their [valueOf] gives no primitive), which throws where
    [String(v)] does. *)
Definition gt0 (v : Value) : Outcome bool :=
  match v with
  | JUndefined | JNull => Returned false
  | JBool b => Returned b
  | JNum n => Returned (number_gt0 n)
  | JStr s => Returned (string_gt0 s)
  | JArr _ | JObj _ => let! s := toStringJS v in Returned (string_gt0 s)
  end.

(** [v === 'lit']. *)
Definition is_string (v : Value) (lit : JSString) : bool :=
  match v with
  | JStr s => jseqb s lit
  | _ => false
  end.

(** ** extractMetadata *)

(** The four identifiers; [JUndefined] is an absent one. *)
Record Metadata := {
  documentId : Value;
  institutionId : Value;
  documentHash : Value;
  signature : Value
}.

(** The object [{}]: every identifier absent. *)
Definition no_metadata : Metadata :=
  {| documentId := JUndefined; institutionId := JUndefined;
     documentHash := JUndefined; signature := JUndefined |}.

Definition extractMetadata (buffer : Buffer) : M Metadata :=
  try_catch
    (info <- call EvPdfjs (pdfjs_info buffer) ;;
     subject <- lift (get info (jstr "Subject")) ;;
     creator <- lift (get info (jstr "Creator")) ;;
     keywords <- lift (get info (jstr "Keywords")) ;;
     producer <- lift (get info (jstr "Producer")) ;;
     ret {| documentId := js_or subject JUndefined;
            institutionId := js_or creator JUndefined;
            documentHash := js_or keywords JUndefined;
            signature := js_or producer JUndefined |})
    (fun error =>
       emit EvConsoleError ;;;
       ret no_metadata).

(* ================================================================== *)
(** * routes/verify.ts *)
(* ================================================================== *)

Definition msg_valid : JSString :=
  jstr "Valid Document - Issued by institution and currently active".
Definition msg_revoked : JSString :=
  jstr "Document Revoked - Issuing institution has invalidated this document".
Definition msg_superseded : JSString :=
  jstr "Document Superseded - This document has been replaced by a newer version".
Definition msg_tampered : JSString :=
  jstr "Invalid Document - Document has been tampered with or is not authentic".
Definition msg_undetermined : JSString :=
  jstr "Document status could not be determined".

(** [result.errors && result.errors.length > 0]. *)
Definition has_errors (result : Value) : Outcome bool :=
  let! errors := get result (jstr "errors") in
  if truthy errors then
    let! errors := get result (jstr "errors") in
    let! len := get errors (jstr "length") in
    gt0 len
  else Returned false.

Definition getStatusMessage (result : Value) : Outcome JSString :=
  let! status := get result (jstr "status") in
  let! active_valid :=
    (if is_string status (jstr "ACTIVE")
     then let! v := get result (jstr "valid") in Returned (truthy v)
     else Returned false) in
  if active_valid then Returned msg_valid
  else
    let! status := get result (jstr "status") in
    if is_string status (jstr "REVOKED") then Returned msg_revoked
    else
      let! status := get result (jstr "status") in
      if is_string status (jstr "SUPERSEDED") then Returned msg_superseded
      else
        let! v := get result (jstr "valid") in
        if negb (truthy v) then
          let! some_errors := has_errors result in
          if some_errors then
            let! errors := get result (jstr "errors") in
            let! first := get0 errors in
            let! first := toStringJS first in
            Returned (jstr "Invalid Document - " ++ first)
          else Returned msg_tampered
        else Returned msg_undetermined.

(** [details.k = v] on an object that has no property [k] yet. *)
Definition set_new (k : JSString) (v : Value) (props : list (JSString * Value))
  : list (JSString * Value) := props ++ [(k, v)].

Definition mapVerificationDetails (result : Value) : Outcome Value :=
  let! v := get result (jstr "valid") in
  let details := [(jstr "isValid", js_or v (JBool false))] in
  let! status := get result (jstr "status") in
  let! revoked :=
    (if is_string status (jstr "REVOKED")
     then let! at_ := get result (jstr "revokedAt") in Returned (truthy at_)
     else Returned false) in
  let! details :=
    (if revoked then
       let! revokedAt := get result (jstr "revokedAt") in
       let! revokedBy := get result (jstr "revokedBy") in
       let! reason := get result (jstr "reason") in
       Returned (set_new (jstr "revocation")
                   (JObj [(jstr "revokedAt", revokedAt);
                          (jstr "revokedBy", revokedBy);
                          (jstr "reason", reason)]) details)
     else Returned details) in
  let! checks := get result (jstr "checks") in
  let! details :=
    (if truthy checks then
       let! checks := get result (jstr "checks") in
       Returned (set_new (jstr "checks") checks details)
     else Returned details) in
  let! some_errors := has_errors result in
  let! details :=
    (if some_errors then
       let! errors := get result (jstr "errors") in
       Returned (set_new (jstr "errors") errors details)
     else Returned details) in
  Returned (JObj details).

(** ** The request's environment and the reply *)

(** The uploaded file part: [data.filename] and what [data.toBuffer()]
    does. *)
Record Upload := {
  upload_filename : JSString;
  upload_toBuffer : Outcome Buffer
}.

(** A [fetch] response: [.status] and what [.json()] does. *)
Record FetchResponse := {
  response_status : Z;
  response_json : Outcome Value
}.

(** [response.ok]: the status is in the range 200-299. *)
Definition response_ok (r : FetchResponse) : bool :=
  (200 <=? response_status r) && (response_status r <=? 299).

(** What one request meets: the multipart file part ([None] when
    [request.file()] gives [undefined]), the authority behind [fetch],
    the clock ([Date_now_iso w i] is the ISO string of the [i]-th
    [new Date()] of the request) and [crypto.randomBytes]. *)
Record World := {
  request_file : Outcome (option Upload);
  fetch : JSString -> Outcome FetchResponse;
  Date_now_iso : nat -> JSString;
  randomBytes : nat -> Buffer
}.

(** [reply.code(c).send(body)]. *)
Record Reply := {
  code : Z;
  body : Value
}.

Definition str (s : String.string) : Value := JStr (jstr s).

Arguments str s%_string.

Definition optional_string (o : option JSString) : Value :=
  match o with
  | Some s => JStr s
  | None => JUndefined
  end.

Definition optional_strings (o : option (list JSString)) : Value :=
  match o with
  | Some l => JArr (map JStr l)
  | None => JUndefined
  end.

Definition reply_no_file : Reply :=
  {| code := 400;
     body := JObj [(jstr "status", str "ERROR");
                   (jstr "message", str "No file uploaded. Please upload a PDF document.")] |}.

Definition reply_validation_failed (validation : ValidationResult) : Reply :=
  {| code := 400;
     body := JObj [(jstr "status", str "INVALID");
                   (jstr "message", optional_string (error validation));
                   (jstr "reason", str "File validation failed")] |}.

Definition reply_security_failed (securityCheck : ScanResult) : Reply :=
  {| code := 400;
     body := JObj [(jstr "status", str "INVALID");
                   (jstr "message", str "Document contains potentially malicious content");
                   (jstr "threats", optional_strings (threats securityCheck));
                   (jstr "reason", str "Security check failed")] |}.

Definition reply_not_a_credential : Reply :=
  {| code := 200;
     body := JObj [(jstr "status", str "UNKNOWN");
                   (jstr "valid", JBool false);
                   (jstr "message",
                    str "This document does not appear to be an AcadCert credential");
                   (jstr "reason", str "No document ID found in metadata");
                   (jstr "details", JObj [(jstr "isAcadCertDocument", JBool false)])] |}.

Definition reply_not_found (metadata : Metadata) : Reply :=
  {| code := 200;
     body := JObj [(jstr "status", str "UNKNOWN");
                   (jstr "valid", JBool false);
                   (jstr "message", str "Document not found in AcadCert system");
                   (jstr "reason", str "Document ID not recognized");
                   (jstr "details", JObj [(jstr "documentId", documentId metadata)])] |}.

Definition reply_unavailable (metadata : Metadata) (verifyResponse : FetchResponse) : Reply :=
  {| code := 200;
     body := JObj [(jstr "status", str "UNKNOWN");
                   (jstr "valid", JBool false);
                   (jstr "message", str "Unable to verify document with issuing institution");
                   (jstr "reason", str "Verification service unavailable");
                   (jstr "details",
                    JObj [(jstr "documentId", documentId metadata);
                          (jstr "httpStatus",
                           JNum (number_of_Z (response_status verifyResponse)))])] |}.

Definition reply_internal_error : Reply :=
  {| code := 500;
     body := JObj [(jstr "status", str "ERROR");
                   (jstr "valid", JBool false);
                   (jstr "message", str "An error occurred during verification. Please try again.");
                   (jstr "reason", str "Internal processing error")] |}.

(** [verificationResult.checks?.k || false]. *)
Definition check_flag (verificationResult : Value) (k : JSString) : Outcome Value :=
  let! checks := get verificationResult (jstr "checks") in
  let! flag := get_opt checks k in
  Returned (js_or flag (JBool false)).

(** [verificationResult.field?.k || 'Unknown']. *)
Definition name_or_unknown (verificationResult : Value) (field k : JSString)
  : Outcome Value :=
  let! part := get verificationResult field in
  let! name := get_opt part k in
  Returned (js_or name (str "Unknown")).

(** Step 5: the object sent on the verified path, its properties
    evaluated in the order they are written. *)
Definition success_body (w : World) (metadata : Metadata) (verificationResult : Value)
  : Outcome Value :=
  let! status := get verificationResult (jstr "status") in
  let! v := get verificationResult (jstr "valid") in
  let! msg := getStatusMessage verificationResult in
  let! institution := get verificationResult (jstr "institution") in
  let! document := get verificationResult (jstr "document") in
  let! cryptographicIntegrity := check_flag verificationResult (jstr "signatureValid") in
  let! issuingAuthority := check_flag verificationResult (jstr "authorityValid") in
  let! revocationStatus := check_flag verificationResult (jstr "notRevoked") in
  let! details := mapVerificationDetails verificationResult in
  let verifiedAt := Date_now_iso w 0 in
  let id := jstr "rcpt_" ++ toString_hex (randomBytes w 12) in
  let receiptAt := Date_now_iso w 1 in
  let! v' := get verificationResult (jstr "valid") in
  let! sig := check_flag verificationResult (jstr "signatureValid") in
  let! authority := check_flag verificationResult (jstr "authorityValid") in
  let! revocation := check_flag verificationResult (jstr "notRevoked") in
  let! institutionName := name_or_unknown verificationResult (jstr "institution") (jstr "name") in
  let! documentType := name_or_unknown verificationResult (jstr "document") (jstr "type") in
  Returned
    (JObj [(jstr "status", status);
           (jstr "valid", v);
           (jstr "message", JStr msg);
           (jstr "documentId", documentId metadata);
           (jstr "institutionId", institutionId metadata);
           (jstr "institution", js_or institution (JObj []));
           (jstr "document", js_or document (JObj []));
           (jstr "verification",
            JObj [(jstr "cryptographicIntegrity", cryptographicIntegrity);
                  (jstr "issuingAuthority", issuingAuthority);
                  (jstr "revocationStatus", revocationStatus)]);
           (jstr "details", details);
           (jstr "verifiedAt", JStr verifiedAt);
           (jstr "receipt",
            JObj [(jstr "id", JStr id);
                  (jstr "documentId", documentId metadata);
                  (jstr "verifiedAt", JStr receiptAt);
                  (jstr "result", if truthy v' then str "VALID" else str "INVALID");
                  (jstr "checks",
                   JObj [(jstr "signature", sig);
                         (jstr "authority", authority);
                         (jstr "revocation", revocation)]);
                  (jstr "institution", institutionName);
                  (jstr "documentType", documentType)])]).

Definition default_ACADCERT_API_URL : JSString := jstr "http://localhost:3000".

(** [process.env.ACADCERT_API_URL || 'http://localhost:3000']: an unset
    or empty variable gives the default. *)
Definition acadCertUrl : JSString :=
  match env_ACADCERT_API_URL with
  | Some (c :: rest) => c :: rest
  | Some [] | None => default_ACADCERT_API_URL
  end.

(** The template literal
    [`${acadCertUrl}/api/documents/${metadata.documentId}/verify-public`]. *)
Definition verifyUrl (metadata : Metadata) : Outcome JSString :=
  let! id := toStringJS (documentId metadata) in
  Returned (acadCertUrl ++ jstr "/api/documents/" ++ id ++ jstr "/verify-public").

(** ** The handler of [POST /verify] *)

Definition verify_handler (w : World) : M Reply :=
  try_catch
    (data <- call EvRequestFile (request_file w) ;;
     match data with
     | None => ret reply_no_file
     | Some data =>
       buffer <- call EvToBuffer (upload_toBuffer data) ;;
       let filename := upload_filename data in
       (* Step 1: Basic PDF validation *)
       validation <- call EvValidate (Returned (validate buffer filename)) ;;
       if negb (valid validation) then ret (reply_validation_failed validation)
       else
         (* Step 2: Security scan *)
         securityCheck <- call EvSecurityScan (Returned (securityScan buffer)) ;;
         if negb (safe securityCheck) then ret (reply_security_failed securityCheck)
         else
           (* Step 3: Extract metadata *)
           emit EvExtractMetadata ;;;
           metadata <- extractMetadata buffer ;;
           if negb (truthy (documentId metadata)) then ret reply_not_a_credential
           else
             (* Step 4: Call the public verification endpoint *)
             url <- lift (verifyUrl metadata) ;;
             emit EvConsoleLog ;;;
             verifyResponse <- call (EvFetch url) (fetch w url) ;;
             if negb (response_ok verifyResponse) then
               emit EvConsoleError ;;;
               if response_status verifyResponse =? 404
               then ret (reply_not_found metadata)
               else ret (reply_unavailable metadata verifyResponse)
             else
               verificationResult <- call EvResponseJson (response_json verifyResponse) ;;
               emit EvConsoleLog ;;;
               (* Step 5: Map the response *)
               payload <- lift (success_body w metadata verificationResult) ;;
               ret {| code := 200; body := payload |}
     end)
    (fun error =>
       emit EvLogError ;;;
       (* Don't leak internal errors *)
       ret reply_internal_error).

(** One request served in the environment [w]: the reply (the handler's
    own [catch] leaves nothing thrown) and the calls made. *)
Definition run (w : World) : Outcome Reply * list Event := verify_handler w [].

Definition calls (w : World) : list Event := snd (run w).

End Program.

Arguments str {RT} s%_string.

(* ================================================================== *)
(** * The design document's reading of the validator and the scanner *)
(* ================================================================== *)

(** The four checks of the structural validator, in the order the
    document gives them. *)
Inductive Check : Type :=
| CheckSize
| CheckEmptiness
| CheckMagicNumber
| CheckExtension.

Definition check_order : list Check :=
  [CheckSize; CheckEmptiness; CheckMagicNumber; CheckExtension].

Definition check_error (c : Check) : JSString :=
  match c with
  | CheckSize => error_too_large
  | CheckEmptiness => error_empty
  | CheckMagicNumber => error_format
  | CheckExtension => error_extension
  end.

(** The place of a check in [check_order]. *)
Definition check_rank (c : Check) : nat :=
  match c with
  | CheckSize => 0
  | CheckEmptiness => 1
  | CheckMagicNumber => 2
  | CheckExtension => 3
  end.

(** The four threat kinds, in the order the scanner reports them. *)
Inductive ThreatKind : Type :=
| JavaScript
| AutoAction
| Launch
| FormSubmission.

Definition threat_order : list ThreatKind :=
  [JavaScript; AutoAction; Launch; FormSubmission].

Definition threat_label (k : ThreatKind) : JSString :=
  match k with
  | JavaScript => jstr "JavaScript detected"
  | AutoAction => jstr "Auto-action detected"
  | Launch => jstr "Launch action detected"
  | FormSubmission => jstr "Form submission detected"
  end.

(** The marker tokens of each kind. *)
Definition markers (k : ThreatKind) : list JSString :=
  match k with
  | JavaScript => [jstr "/javascript"; jstr "/js"]
  | AutoAction => [jstr "/aa"; jstr "/openaction"]
  | Launch => [jstr "/launch"]
  | FormSubmission => [jstr "/submitform"]
  end.

(** A marker of kind [k] occurs in the text. *)
Definition marker_matches (text : JSString) (k : ThreatKind) : bool :=
  existsb (includes text) (markers k).

(** [l] keeps some of the elements of [l'], in the order of [l']. *)
Inductive Subsequence {A : Type} : list A -> list A -> Prop :=
| Subsequence_nil : Subsequence [] []
| Subsequence_skip x l l' : Subsequence l l' -> Subsequence l (x :: l')
| Subsequence_keep x l l' : Subsequence l l' -> Subsequence (x :: l) (x :: l').

(** The threats a scan lists ([nil] when it lists none). *)
Definition listed (r : ScanResult) : list JSString :=
  match threats r with
  | Some l => l
  | None => []
  end.

Section Reading.
Context {RT : Runtime}.

(** Does check [c] reject the submission? Size: the byte length exceeds
    the maximum. Emptiness: no byte. Magic number: the buffer does not
    begin with the five bytes of the signature. Extension: the
    lower-cased file name does not end in [.pdf]. *)
Definition check_fails (c : Check) (buffer : Buffer) (filename : JSString) : bool :=
  match c with
  | CheckSize => MAX_FILE_SIZE <? buffer_length buffer
  | CheckEmptiness => match buffer with [] => true | _ :: _ => false end
  | CheckMagicNumber =>
      match buffer with
      | b0 :: b1 :: b2 :: b3 :: b4 :: _ =>
          negb (buffer_equals [b0; b1; b2; b3; b4] (Buffer_from "%PDF-"))
      | _ => true
      end
  | CheckExtension => negb (endsWith (toLowerCase filename) (jstr ".pdf"))
  end.

(** The error of the first check of [checks] that rejects, validity
    when none does. *)
Fixpoint first_failure (checks : list Check) (buffer : Buffer) (filename : JSString)
  : ValidationResult :=
  match checks with
  | [] => {| valid := true; error := None |}
  | c :: rest =>
      if check_fails c buffer filename then invalid (check_error c)
      else first_failure rest buffer filename
  end.

(** [v.k] where the read does not throw. *)
Definition prop (v : JSValue Number) (k : JSString) : JSValue Number :=
  match get v k with
  | Returned x => x
  | Thrown _ => JUndefined
  end.

(** The message of the verified path by the precedence the document
    states, from the answer's [status], [valid] and [errors]: active and
    valid, revoked, superseded, invalid with a first error, and the
    undetermined message in every other case. *)
Definition message_as_stated (status v errors : JSValue Number) : Outcome JSString :=
  if is_string status (jstr "ACTIVE") && truthy v then Returned msg_valid
  else if is_string status (jstr "REVOKED") then Returned msg_revoked
  else if is_string status (jstr "SUPERSEDED") then Returned msg_superseded
  else match truthy v, errors with
       | false, JArr (first :: _) =>
           let! first := toStringJS first in
           Returned (jstr "Invalid Document - " ++ first)
       | _, _ => Returned msg_undetermined
       end.

(** The same precedence with one more case before the last: invalid
    without a first error gives the tampered message, and the
    undetermined message is left to answers that are valid with a status
    other than the three named. *)
Definition message_by_precedence (status v errors : JSValue Number) : Outcome JSString :=
  if is_string status (jstr "ACTIVE") && truthy v then Returned msg_valid
  else if is_string status (jstr "REVOKED") then Returned msg_revoked
  else if is_string status (jstr "SUPERSEDED") then Returned msg_superseded
  else match truthy v, errors with
       | false, JArr (first :: _) =>
           let! first := toStringJS first in
           Returned (jstr "Invalid Document - " ++ first)
       | false, _ => Returned msg_tampered
       | true, _ => Returned msg_undetermined
       end.

(** The [errors] of an answer are a list, or absent. *)
Definition list_or_absent (errors : JSValue Number) : Prop :=
  errors = JUndefined \/ errors = JNull \/ exists es, errors = JArr es.

(** An object's properties without those named [keys]. *)
Definition drop_keys (keys : list JSString) (props : list (JSString * JSValue Number))
  : list (JSString * JSValue Number) :=
  filter (fun kv => negb (existsb (jseqb (fst kv)) keys)) props.

(** The outcome fields of a reply's body: every property but
    [verifiedAt], and of [receipt] every property but [id] and
    [verifiedAt]. *)
Definition outcome_fields (payload : JSValue Number) : JSValue Number :=
  match payload with
  | JObj props =>
      JObj (map (fun kv =>
                   if jseqb (fst kv) (jstr "receipt")
                   then (fst kv,
                         match snd kv with
                         | JObj receipt =>
                             JObj (drop_keys [jstr "id"; jstr "verifiedAt"] receipt)
                         | other => other
                         end)
                   else kv)
                (drop_keys [jstr "verifiedAt"] props))
  | other => other
  end.

(** The nested property [payload.k1.k2]. *)
Definition prop2 (payload : JSValue Number) (k1 k2 : JSString) : JSValue Number :=
  prop (prop payload k1) k2.

(** The scanner of the document: every kind whose marker occurs in the
    decoded, lower-cased text, in the order of [threat_order]; safe when
    there is none, and then no list. *)
Definition scan_reading (buffer : Buffer) : ScanResult :=
  let text := toLowerCase (toString_utf8 buffer) in
  let found := map threat_label (filter (marker_matches text) threat_order) in
  match found with
  | [] => {| safe := true; threats := None |}
  | _ :: _ => {| safe := false; threats := Some found |}
  end.

(** The identifiers [extractMetadata] returns for a buffer, and the
    calls it logs; neither depends on the log it starts from. *)
Definition identifiers (buffer : Buffer) : Metadata :=
  match fst (extractMetadata buffer []) with
  | Returned m => m
  | Thrown _ => no_metadata
  end.

Definition extract_events (buffer : Buffer) : list Event :=
  snd (extractMetadata buffer []).

(** A value with none of the four fields the extractor reads. *)
Definition lacks_fields (info : JSValue Number) : Prop :=
  forall k, In k [jstr "Subject"; jstr "Creator"; jstr "Keywords"; jstr "Producer"] ->
            get info k = Returned JUndefined.

(** The request carries the file part [data], whose bytes are [buffer]. *)
Definition submission (w : World) (data : Upload) (buffer : Buffer) : Prop :=
  request_file w = Returned (Some data) /\ upload_toBuffer data = Returned buffer.

(** The call [ev] was made while the request was served. *)
Definition ran (ev : Event) (w : World) : Prop := In ev (calls w).

End Reading.

(* ================================================================== *)
(** * The paths of the handler *)
(* ================================================================== *)

(** Console and logger calls, as opposed to the calls of the pipeline. *)
Definition is_console (ev : Event) : bool :=
  match ev with
  | EvConsoleLog | EvConsoleError | EvLogError => true
  | _ => false
  end.

Definition is_fetch (ev : Event) : bool :=
  match ev with
  | EvFetch _ => true
  | _ => false
  end.

(** The calls of the pipeline in the order the handler makes them, the
    authority being asked at [url]. *)
Definition pipeline (url : JSString) : list Event :=
  [EvRequestFile; EvToBuffer; EvValidate; EvSecurityScan;
   EvExtractMetadata; EvPdfjs; EvFetch url; EvResponseJson].

(** A lower-case hexadecimal digit. *)
Definition is_hex_digit (c : N) : bool :=
  (((48 <=? c) && (c <=? 57)) || ((97 <=? c) && (c <=? 102)))%N.

Section Paths.
Context {RT : Runtime}.

(** The calls up to and including the extractor, for a submission that
    passed the validator and the scanner. *)
Definition calls_to_extractor (buffer : Buffer) : list Event :=
  [EvRequestFile; EvToBuffer; EvValidate; EvSecurityScan; EvExtractMetadata]
  ++ extract_events buffer.

(** [v?.k] where it returns (it always does). *)
Definition prop_opt (v : JSValue Number) (k : JSString) : JSValue Number :=
  match get_opt v k with
  | Returned x => x
  | Thrown _ => JUndefined
  end.

(** The thirteen ways a request is served: the reply and the calls of
    each, with the conditions that lead there. *)
Inductive Served (w : World) : Reply -> list Event -> Prop :=
| Served_file_throws e :
    request_file w = Thrown e ->
    Served w reply_internal_error [EvRequestFile; EvLogError]
| Served_no_file :
    request_file w = Returned None ->
    Served w reply_no_file [EvRequestFile]
| Served_buffer_throws data e :
    request_file w = Returned (Some data) ->
    upload_toBuffer data = Thrown e ->
    Served w reply_internal_error [EvRequestFile; EvToBuffer; EvLogError]
| Served_invalid data buffer :
    submission w data buffer ->
    valid (validate buffer (upload_filename data)) = false ->
    Served w (reply_validation_failed (validate buffer (upload_filename data)))
      [EvRequestFile; EvToBuffer; EvValidate]
| Served_unsafe data buffer :
    submission w data buffer ->
    valid (validate buffer (upload_filename data)) = true ->
    safe (securityScan buffer) = false ->
    Served w (reply_security_failed (securityScan buffer))
      [EvRequestFile; EvToBuffer; EvValidate; EvSecurityScan]
| Served_not_a_credential data buffer :
    submission w data buffer ->
    valid (validate buffer (upload_filename data)) = true ->
    safe (securityScan buffer) = true ->
    truthy (documentId (identifiers buffer)) = false ->
    Served w reply_not_a_credential (calls_to_extractor buffer)
| Served_url_throws data buffer e :
    submission w data buffer ->
    valid (validate buffer (upload_filename data)) = true ->
    safe (securityScan buffer) = true ->
    truthy (documentId (identifiers buffer)) = true ->
    verifyUrl (identifiers buffer) = Thrown e ->
    Served w reply_internal_error (calls_to_extractor buffer ++ [EvLogError])
| Served_fetch_throws data buffer url e :
    submission w data buffer ->
    valid (validate buffer (upload_filename data)) = true ->
    safe (securityScan buffer) = true ->
    truthy (documentId (identifiers buffer)) = true ->
    verifyUrl (identifiers buffer) = Returned url ->
    fetch w url = Thrown e ->
    Served w reply_internal_error
      (calls_to_extractor buffer
       ++ [EvConsoleLog; EvFetch url; EvLogError])
| Served_not_found data buffer url verifyResponse :
    submission w data buffer ->
    valid (validate buffer (upload_filename data)) = true ->
    safe (securityScan buffer) = true ->
    truthy (documentId (identifiers buffer)) = true ->
    verifyUrl (identifiers buffer) = Returned url ->
    fetch w url = Returned verifyResponse ->
    response_ok verifyResponse = false ->
    response_status verifyResponse = 404 ->
    Served w (reply_not_found (identifiers buffer))
      (calls_to_extractor buffer
       ++ [EvConsoleLog; EvFetch url; EvConsoleError])
| Served_unavailable data buffer url verifyResponse :
    submission w data buffer ->
    valid (validate buffer (upload_filename data)) = true ->
    safe (securityScan buffer) = true ->
    truthy (documentId (identifiers buffer)) = true ->
    verifyUrl (identifiers buffer) = Returned url ->
    fetch w url = Returned verifyResponse ->
    response_ok verifyResponse = false ->
    response_status verifyResponse <> 404 ->
    Served w (reply_unavailable (identifiers buffer) verifyResponse)
      (calls_to_extractor buffer
       ++ [EvConsoleLog; EvFetch url; EvConsoleError])
| Served_json_throws data buffer url verifyResponse e :
    submission w data buffer ->
    valid (validate buffer (upload_filename data)) = true ->
    safe (securityScan buffer) = true ->
    truthy (documentId (identifiers buffer)) = true ->
    verifyUrl (identifiers buffer) = Returned url ->
    fetch w url = Returned verifyResponse ->
    response_ok verifyResponse = true ->
    response_json verifyResponse = Thrown e ->
    Served w reply_internal_error
      (calls_to_extractor buffer
       ++ [EvConsoleLog; EvFetch url;
           EvResponseJson; EvLogError])
| Served_body_throws data buffer url verifyResponse result e :
    submission w data buffer ->
    valid (validate buffer (upload_filename data)) = true ->
    safe (securityScan buffer) = true ->
    truthy (documentId (identifiers buffer)) = true ->
    verifyUrl (identifiers buffer) = Returned url ->
    fetch w url = Returned verifyResponse ->
    response_ok verifyResponse = true ->
    response_json verifyResponse = Returned result ->
    success_body w (identifiers buffer) result = Thrown e ->
    Served w reply_internal_error
      (calls_to_extractor buffer
       ++ [EvConsoleLog; EvFetch url;
           EvResponseJson; EvConsoleLog; EvLogError])
| Served_verified data buffer url verifyResponse result payload :
    submission w data buffer ->
    valid (validate buffer (upload_filename data)) = true ->
    safe (securityScan buffer) = true ->
    truthy (documentId (identifiers buffer)) = true ->
    verifyUrl (identifiers buffer) = Returned url ->
    fetch w url = Returned verifyResponse ->
    response_ok verifyResponse = true ->
    response_json verifyResponse = Returned result ->
    success_body w (identifiers buffer) result = Returned payload ->
    Served w {| code := 200; body := payload |}
      (calls_to_extractor buffer
       ++ [EvConsoleLog; EvFetch url;
           EvResponseJson; EvConsoleLog]).

End Paths.

(* ================================================================== *)
(** * A runtime for examples *)
(* ================================================================== *)

(** Lower-casing of the 26 capital letters; other code units stay. It
    agrees with [toLowerCase] on 7-bit strings. *)
Definition ascii_lower (c : N) : N :=
  if ((65 <=? c) && (c <=? 90))%N then (c + 32)%N else c.

(** Decoding of a 7-bit buffer; a byte above 127 is read as U+FFFD. *)
Definition ascii_decode (b : Buffer) : JSString :=
  map (fun x => let n := Byte.to_N x in if (n <? 128)%N then n else 65533%N) b.

(** A string of decimal digits, read as a number, is positive. *)
Definition digits_gt0 (s : JSString) : bool :=
  match s with
  | [] => false
  | _ :: _ =>
      forallb (fun c => ((48 <=? c) && (c <=? 57))%N) s
      && existsb (fun c => negb (c =? 48)%N) s
  end.

(** Integers for numbers, 7-bit text, and a given answer of the pdf.js
    parser and value of the environment variable. *)
Definition ascii_runtime (parser : Buffer -> Outcome (JSValue Z))
    (env : option JSString) : Runtime :=
  {| Number := Z;
     number_of_Z := fun z => z;
     number_toBoolean := fun z => negb (z =? 0);
     number_gt0 := fun z => 0 <? z;
     number_toString := decimal;
     string_gt0 := digits_gt0;
     toLowerCase := map ascii_lower;
     toString_utf8 := ascii_decode;
     pdfjs_info := parser;
     env_ACADCERT_API_URL := env;
     number_gt0_of_Z := fun z => eq_refl |}.

(** A parser that rejects every buffer. *)
Definition parser_rejects : Buffer -> Outcome (JSValue Z) :=
  fun _ => Thrown {| message := jstr "Invalid PDF structure." |}.

(** A parser that finds the given info dictionary in every buffer. *)
Definition parser_finds (info : JSValue Z) : Buffer -> Outcome (JSValue Z) :=
  fun _ => Returned info.

(** A buffer of [n] space bytes after the given head. *)
Definition padded (head : Buffer) (n : Z) : Buffer :=
  head ++ repeat x20 (Z.to_nat n).

Definition sample_pdf : Buffer :=
  Buffer_from "%PDF-1.4 1 0 obj << /Type /Catalog >> endobj trailer << /Root 1 0 R >> %%EOF".

(** An info dictionary as pdf.js gives it for a plain PDF, and one of a
    credential with its identifiers in the repurposed fields. *)
Definition info_plain : JSValue Z :=
  JObj [(jstr "PDFFormatVersion", JStr (jstr "1.4"));
        (jstr "IsAcroFormPresent", JBool false)].

Definition info_credential : JSValue Z :=
  JObj [(jstr "PDFFormatVersion", JStr (jstr "1.4"));
        (jstr "Subject", JStr (jstr "doc_7f3a"));
        (jstr "Creator", JStr (jstr "inst_042"));
        (jstr "Keywords", JStr (jstr "9b1c"));
        (jstr "Producer", JStr (jstr "sig_55"))].

Definition rt_plain : Runtime := ascii_runtime (parser_finds info_plain) None.
Definition rt_credential : Runtime := ascii_runtime (parser_finds info_credential) None.

(** An authority that answers every request with the given status and
    body. *)
Definition authority_answers {rt : Runtime} (status : Z)
    (payload : Outcome (JSValue (Number (Runtime := rt))))
  : JSString -> Outcome (FetchResponse (RT := rt)) :=
  fun _ => Returned (Build_FetchResponse (RT := rt) status payload).

Definition not_json : Outcome (JSValue Z) :=
  Thrown {| message := jstr "Unexpected token < in JSON at position 0" |}.

(** The answer of the authority for an active, valid document. *)
Definition answer_active : JSValue Z :=
  JObj [(jstr "status", JStr (jstr "ACTIVE"));
        (jstr "valid", JBool true);
        (jstr "checks",
         JObj [(jstr "signatureValid", JBool true);
               (jstr "authorityValid", JBool true);
               (jstr "notRevoked", JBool true)]);
        (jstr "institution", JObj [(jstr "name", JStr (jstr "Example University"))]);
        (jstr "document", JObj [(jstr "type", JStr (jstr "DIPLOMA"))])].

(** The answer for an active document whose signature does not verify,
    with no list of errors. *)
Definition answer_bad_signature : JSValue Z :=
  JObj [(jstr "status", JStr (jstr "ACTIVE"));
        (jstr "valid", JBool false);
        (jstr "checks",
         JObj [(jstr "signatureValid", JBool false);
               (jstr "authorityValid", JBool true);
               (jstr "notRevoked", JBool true)])].

(** The answer for a document the authority rejects with reasons. *)
Definition answer_rejected : JSValue Z :=
  JObj [(jstr "status", JStr (jstr "ACTIVE"));
        (jstr "valid", JBool false);
        (jstr "errors", JArr [JStr (jstr "Signature mismatch");
                              JStr (jstr "Hash mismatch")])].

(** A request carrying the file [buffer] under [name], served at the
    given clock readings with the given random bytes. *)
Definition world_with {rt : Runtime} (name : JSString) (buffer : Buffer)
    (authority : JSString -> Outcome (FetchResponse (RT := rt)))
    (now1 now2 : JSString) (random : Buffer) : World (RT := rt) :=
  {| request_file :=
       Returned (Some {| upload_filename := name; upload_toBuffer := Returned buffer |});
     fetch := authority;
     Date_now_iso := fun i => match i with O => now1 | S _ => now2 end;
     randomBytes := fun _ => random |}.

Definition random_a : Buffer := [x00; x01; x02; x03; x04; x05; x06; x07; x08; x09; x0a; xff].
Definition random_b : Buffer := [x10; x11; x12; x13; x14; x15; x16; x17; x18; x19; x1a; x1b].

(** The file part of a request. *)
Definition upload_of (name : JSString) (buffer : Buffer) : Upload :=
  {| upload_filename := name; upload_toBuffer := Returned buffer |}.

(** A runtime whose parser rejects every buffer. *)
Definition rt_rejecting : Runtime := ascii_runtime parser_rejects None.

(** Small PDFs with one marker each. *)
Definition script_pdf : Buffer :=
  Buffer_from "%PDF-1.4 << /S /JavaScript /JS (app.alert(1)) >>".
Definition openaction_pdf : Buffer :=
  Buffer_from "%PDF-1.4 << /OpenAction 3 0 R >>".
Definition launch_pdf : Buffer :=
  Buffer_from "%PDF-1.4 << /S /Launch /F (cmd.exe) >>".
Definition submitform_pdf : Buffer :=
  Buffer_from "%PDF-1.4 << /S /SubmitForm /F (http://x) >>".

Definition morning : JSString := jstr "2024-05-01T08:00:00.000Z".
Definition morning' : JSString := jstr "2024-05-01T08:00:00.001Z".
Definition evening : JSString := jstr "2024-05-01T19:30:12.480Z".

Definition fetch_fails {rt : Runtime} : JSString -> Outcome (FetchResponse (RT := rt)) :=
  fun _ => Thrown {| message := jstr "fetch failed" |}.

(** A GIF under a PDF name; a PDF with a script; a plain PDF with no
    Subject; a credential the authority does not know, one it fails on,
    and one it reports active (served twice, at different times and
    with different random bytes). *)
Definition world_gif : World (RT := rt_credential) :=
  world_with (jstr "doc.pdf") (Buffer_from "GIF89a")
    (authority_answers (rt := rt_credential) 200 (Returned answer_active))
    morning morning' random_a.

Definition world_script : World (RT := rt_credential) :=
  world_with (jstr "doc.pdf") script_pdf
    (authority_answers (rt := rt_credential) 200 (Returned answer_active))
    morning morning' random_a.

Definition world_plain : World (RT := rt_plain) :=
  world_with (jstr "diploma.pdf") sample_pdf fetch_fails morning morning' random_a.

Definition world_unknown_id : World (RT := rt_credential) :=
  world_with (jstr "diploma.pdf") sample_pdf
    (authority_answers (rt := rt_credential) 404 not_json) morning morning' random_a.

Definition world_unavailable : World (RT := rt_credential) :=
  world_with (jstr "diploma.pdf") sample_pdf
    (authority_answers (rt := rt_credential) 503 not_json) morning morning' random_a.

Definition world_active : World (RT := rt_credential) :=
  world_with (jstr "diploma.pdf") sample_pdf
    (authority_answers (rt := rt_credential) 200 (Returned answer_active))
    morning morning' random_a.

Definition world_active_again : World (RT := rt_credential) :=
  world_with (jstr "diploma.pdf") sample_pdf
    (authority_answers (rt := rt_credential) 200 (Returned answer_active))
    evening evening random_b.

Definition world_rejected : World (RT := rt_credential) :=
  world_with (jstr "diploma.pdf") sample_pdf
    (authority_answers (rt := rt_credential) 200 (Returned answer_rejected))
    morning morning' random_a.

(** The reason of a reply's body. *)
Definition reason_of {rt : Runtime} (r : Outcome (Reply (RT := rt)))
  : JSValue (Number (Runtime := rt)) :=
  match r with
  | Returned {| code := _; body := JObj props |} => lookup (jstr "reason") props
  | _ => JUndefined
  end.

Definition code_of {rt : Runtime} (r : Outcome (Reply (RT := rt))) : Z :=
  match r with
  | Returned r => code r
  | Thrown _ => 0
  end.

(** The authority answers 200 with the JSON body [null], and with an
    empty array. *)
Definition world_null : World (RT := rt_credential) :=
  world_with (jstr "diploma.pdf") sample_pdf
    (authority_answers (rt := rt_credential) 200 (Returned JNull))
    morning morning' random_a.

Definition world_array : World (RT := rt_credential) :=
  world_with (jstr "diploma.pdf") sample_pdf
    (authority_answers (rt := rt_credential) 200 (Returned (JArr [])))
    morning morning' random_a.

(** The answer for a revoked document. *)
Definition answer_revoked : JSValue Z :=
  JObj [(jstr "status", JStr (jstr "REVOKED"));
        (jstr "valid", JBool false);
        (jstr "revokedAt", JStr (jstr "2024-03-01T00:00:00.000Z"));
        (jstr "revokedBy", JStr (jstr "registrar"));
        (jstr "reason", JStr (jstr "Issued in error"));
        (jstr "errors", JArr [JStr (jstr "Document revoked")])].

(** An answer whose first error is an object with a property named
    [toString], and the authority giving it. *)
Definition answer_unprintable : JSValue Z :=
  JObj [(jstr "valid", JBool false);
        (jstr "errors", JArr [JObj [(jstr "toString", JNull)]])].

Definition world_unprintable : World (RT := rt_credential) :=
  world_with (jstr "diploma.pdf") sample_pdf
    (authority_answers (rt := rt_credential) 200 (Returned answer_unprintable))
    morning morning' random_a.

(** An answer whose [errors] is a string instead of a list. *)
Definition answer_errors_string : JSValue Z :=
  JObj [(jstr "status", JStr (jstr "ACTIVE"));
        (jstr "valid", JBool false);
        (jstr "errors", JStr (jstr "Signature mismatch"))].

(** The reply served in an environment. *)
Definition reply_of {rt : Runtime} (w : World (RT := rt)) : Reply (RT := rt) :=
  match fst (run w) with
  | Returned r => r
  | Thrown _ => reply_internal_error
  end.

(** A PDF whose only slash-a-a is the name of a subset font. *)
Definition font_pdf : Buffer :=
  Buffer_from "%PDF-1.4 << /Type /Font /BaseFont /AAAAAA+Helvetica >>".

(** A request without a file part. *)
Definition world_without_file {rt : Runtime} : World (RT := rt) :=
  {| request_file := Returned None;
     fetch := fun _ => Thrown {| message := jstr "fetch failed" |};
     Date_now_iso := fun _ => jstr "2024-05-01T08:00:00.000Z";
     randomBytes := fun n => repeat x00 n |}.


(* ================================================================== *)
(** * The string operations *)
(* ================================================================== *)

Lemma jseqb_eq (s t : JSString) : jseqb s t = true <-> s = t.
Proof.
  revert t; induction s as [|c s IH]; intros [|d t]; simpl; split;
    try congruence; try reflexivity.
  - intros H. apply andb_true_iff in H as [Hc Hs].
    apply N.eqb_eq in Hc. apply IH in Hs. congruence.
  - intros H. injection H as -> ->. apply andb_true_iff. split.
    + apply N.eqb_refl.
    + now apply IH.
Qed.

(** [startsWith]: the string is the pattern followed by something. *)
Lemma startsWith_spec (s pat : JSString) :
  startsWith s pat = true <-> exists post, s = pat ++ post.
Proof.
  revert s; induction pat as [|p pat IH]; intros s.
  - split; [intros _; now exists s | destruct s; reflexivity].
  - destruct s as [|c s]; simpl.
    + split; [discriminate | intros [post H]; discriminate H].
    + rewrite andb_true_iff, N.eqb_eq, IH. split.
      * intros [-> [post ->]]. now exists post.
      * intros [post H]. injection H as -> ->. split; [reflexivity|]. now exists post.
Qed.

Lemma includes_nil (pat : JSString) :
  includes [] pat = startsWith [] pat || false.
Proof. reflexivity. Qed.

Lemma includes_cons (c : N) (s pat : JSString) :
  includes (c :: s) pat = startsWith (c :: s) pat || includes s pat.
Proof. reflexivity. Qed.

(** [includes]: the pattern occurs somewhere in the string. *)
Lemma includes_spec (s pat : JSString) :
  includes s pat = true <-> exists pre post, s = pre ++ pat ++ post.
Proof.
  split.
  - induction s as [|c s IH].
    + rewrite includes_nil, orb_false_r. intros H.
      apply startsWith_spec in H as [post H]. now exists [], post.
    + rewrite includes_cons, orb_true_iff. intros [H|H].
      * apply startsWith_spec in H as [post H]. now exists [], post.
      * destruct (IH H) as (pre & post & ->). now exists (c :: pre), post.
  - intros (pre & post & ->). induction pre as [|c pre IH].
    + assert (H : startsWith (pat ++ post) pat = true)
        by (apply startsWith_spec; now exists post).
      cbn [app]. destruct (pat ++ post).
      * now rewrite includes_nil, H.
      * now rewrite includes_cons, H.
    + cbn [app]. rewrite includes_cons. apply orb_true_iff. right. exact IH.
Qed.

(** [endsWith]: the string is something followed by the suffix. *)
Lemma endsWith_spec (s suf : JSString) :
  endsWith s suf = true <-> exists pre, s = pre ++ suf.
Proof.
  unfold endsWith. rewrite andb_true_iff, Nat.leb_le, jseqb_eq. split.
  - intros [_ H]. exists (firstn (length s - length suf) s).
    pose proof (firstn_skipn (length s - length suf) s) as Hsplit.
    rewrite H in Hsplit. now symmetry.
  - intros [pre ->]. rewrite length_app. split; [lia|].
    replace (length pre + length suf - length suf)%nat with (length pre) by lia.
    rewrite skipn_app, skipn_all, Nat.sub_diag. reflexivity.
Qed.

(* ================================================================== *)
(** * Properties of [validate] *)
(* ================================================================== *)

Lemma buffer_equals_eq (a b : Buffer) : buffer_equals a b = true <-> a = b.
Proof.
  revert b; induction a as [|x a IH]; intros [|y b]; simpl; split;
    try congruence; try reflexivity.
  - intros H. apply andb_true_iff in H as [Hx Hab].
    apply byte_dec_bl in Hx. apply IH in Hab. congruence.
  - intros H. injection H as -> ->. apply andb_true_iff. split.
    + now apply byte_dec_lb.
    + now apply IH.
Qed.

Lemma buffer_length_pos_cons (buffer : Buffer) :
  0 < buffer_length buffer -> exists b rest, buffer = b :: rest.
Proof.
  destruct buffer as [|b rest]; unfold buffer_length; simpl; [lia|eauto].
Qed.

Section ValidateProperties.
Context {RT : Runtime}.

(** The magic-number test of the code, on the first five bytes, is the
    check of the document. *)
Lemma magic_test_check (buffer : Buffer) (filename : JSString) :
  negb (buffer_equals (subarray0 buffer 5) PDF_MAGIC_NUMBER)
  = check_fails CheckMagicNumber buffer filename.
Proof.
  unfold subarray0.
  destruct buffer as [|b0 [|b1 [|b2 [|b3 [|b4 rest]]]]];
    cbn [firstn check_fails];
    change PDF_MAGIC_NUMBER with [x25; x50; x44; x46; x2d];
    change (Buffer_from "%PDF-") with [x25; x50; x44; x46; x2d];
    cbn [buffer_equals]; rewrite ?andb_false_r; reflexivity.
Qed.

(** [validate] is the first failure among the four checks in order. *)
Lemma validate_first_failure (buffer : Buffer) (filename : JSString) :
  validate buffer filename = first_failure check_order buffer filename.
Proof.
  unfold validate, check_order, first_failure.
  cbv zeta. rewrite (magic_test_check buffer filename).
  replace (buffer_length buffer >? MAX_FILE_SIZE)
    with (check_fails CheckSize buffer filename)
    by (simpl; now rewrite Z.gtb_ltb).
  replace (buffer_length buffer =? 0)
    with (check_fails CheckEmptiness buffer filename)
    by (destruct buffer; reflexivity).
  cbv zeta.
  destruct (check_fails CheckSize buffer filename); [reflexivity|].
  destruct (check_fails CheckEmptiness buffer filename); [reflexivity|].
  destruct (check_fails CheckMagicNumber buffer filename); [reflexivity|].
  reflexivity.
Qed.

(** A buffer passes the magic-number check exactly when it begins with
    [%PDF-]. *)
Lemma magic_check_passes_iff (buffer : Buffer) (filename : JSString) :
  check_fails CheckMagicNumber buffer filename = false
  <-> exists rest, buffer = Buffer_from "%PDF-" ++ rest.
Proof.
  split.
  - destruct buffer as [|b0 [|b1 [|b2 [|b3 [|b4 rest]]]]]; simpl; try discriminate.
    intros H. apply negb_false_iff in H.
    apply (proj1 (buffer_equals_eq [b0; b1; b2; b3; b4] (Buffer_from "%PDF-"))) in H.
    exists rest. change (Buffer_from "%PDF-" ++ rest)
      with ([x25; x50; x44; x46; x2d] ++ rest).
    change (Buffer_from "%PDF-") with [x25; x50; x44; x46; x2d] in H.
    injection H as -> -> -> -> ->. reflexivity.
  - intros [rest ->]. reflexivity.
Qed.

Lemma check_error_injective (c c' : Check) :
  check_error c = check_error c' -> c = c'.
Proof.
  destruct c, c'; intros H; try reflexivity; vm_compute in H; discriminate H.
Qed.

(** When the checks from [c] on are run and report the error of [c'],
    [c'] rejects and no check between them does. *)
Lemma first_failure_reports_first (buffer : Buffer) (filename : JSString) (c : Check) :
  error (first_failure check_order buffer filename) = Some (check_error c) ->
  check_fails c buffer filename = true
  /\ forall c', (check_rank c' < check_rank c)%nat ->
                check_fails c' buffer filename = false.
Proof.
  unfold check_order, first_failure.
  destruct (check_fails CheckSize buffer filename) eqn:Hsize;
    [|destruct (check_fails CheckEmptiness buffer filename) eqn:Hempty;
      [|destruct (check_fails CheckMagicNumber buffer filename) eqn:Hmagic;
        [|destruct (check_fails CheckExtension buffer filename) eqn:Hext]]];
    cbn [invalid error]; intros H; try discriminate H;
    injection H as H;
    destruct c; try (vm_compute in H; discriminate H);
    (split; [assumption|]);
    intros [ | | | ]; cbn [check_rank]; intros Hlt; try lia; assumption.
Qed.

(** C4. The structural validator runs its checks in the order size,
    emptiness, magic number, extension and stops at the first that
    rejects: [validate] is the first failure of [check_order]; the error
    it reports is the error of a check that rejects while every earlier
    check passes; and a non-empty buffer within the size limit that is
    shorter than 5 bytes or does not begin with [%PDF-] is invalid with
    the invalid-format error, whatever the file name. *)
Theorem validate_checks_in_order (buffer : Buffer) (filename : JSString) :
  validate buffer filename = first_failure check_order buffer filename
  /\ (forall c, error (validate buffer filename) = Some (check_error c) ->
        check_fails c buffer filename = true
        /\ forall c', (check_rank c' < check_rank c)%nat ->
                      check_fails c' buffer filename = false)
  /\ (0 < buffer_length buffer <= MAX_FILE_SIZE ->
      (buffer_length buffer < 5
       \/ ~ exists rest, buffer = Buffer_from "%PDF-" ++ rest) ->
      validate buffer filename = invalid error_format).
Proof.
  split; [apply validate_first_failure|].
  split.
  - intros c. rewrite validate_first_failure.
    apply first_failure_reports_first.
  - intros [Hpos Hmax] Hbad.
    rewrite validate_first_failure. unfold check_order, first_failure.
    assert (Hsize : check_fails CheckSize buffer filename = false)
      by (cbn [check_fails]; apply Z.ltb_ge; exact Hmax).
    assert (Hempty : check_fails CheckEmptiness buffer filename = false).
    { destruct (buffer_length_pos_cons buffer Hpos) as (b & rest & ->).
      reflexivity. }
    assert (Hmagic : check_fails CheckMagicNumber buffer filename = true).
    { destruct (check_fails CheckMagicNumber buffer filename) eqn:E;
        [reflexivity|].
      pose proof (proj1 (magic_check_passes_iff buffer filename) E) as Hex.
      destruct Hbad as [Hshort | Hno]; [|contradiction].
      destruct Hex as [rest ->]. unfold buffer_length in Hshort.
      rewrite length_app in Hshort. simpl in Hshort. lia. }
    rewrite Hsize, Hempty, Hmagic. reflexivity.
Qed.

(** C5. A buffer of exactly 50 MiB (52428800 bytes) passes the size
    check: the code's size test is false, the outcome is that of the
    three later checks, never the size-limit error, and a buffer that
    begins with [%PDF-] under a [.pdf] name is valid. A buffer one byte
    longer is invalid with the size-limit message, which reads 50MB. *)
Theorem validate_size_boundary (buffer : Buffer) (filename : JSString) :
  (buffer_length buffer = 52428800 ->
     (buffer_length buffer >? MAX_FILE_SIZE) = false
     /\ validate buffer filename
        = first_failure [CheckEmptiness; CheckMagicNumber; CheckExtension]
            buffer filename
     /\ error (validate buffer filename) <> Some error_too_large
     /\ ((exists rest, buffer = Buffer_from "%PDF-" ++ rest) ->
         endsWith (toLowerCase filename) (jstr ".pdf") = true ->
         validate buffer filename = {| valid := true; error := None |}))
  /\ (buffer_length buffer = 52428801 ->
      validate buffer filename = invalid error_too_large)
  /\ error_too_large = jstr "File too large. Maximum size is 50MB".
Proof.
  split; [|split; [|reflexivity]].
  - intros Hlen.
    assert (Hgt : (buffer_length buffer >? MAX_FILE_SIZE) = false).
    { rewrite Hlen. reflexivity. }
    assert (Hrest : validate buffer filename
                    = first_failure [CheckEmptiness; CheckMagicNumber; CheckExtension]
                        buffer filename).
    { rewrite validate_first_failure. unfold check_order.
      cbn [first_failure].
      change (check_fails CheckSize buffer filename)
        with (MAX_FILE_SIZE <? buffer_length buffer).
      rewrite Hlen. reflexivity. }
    split; [exact Hgt|]. split; [exact Hrest|]. split.
    + rewrite Hrest. cbn [first_failure].
      destruct (check_fails CheckEmptiness buffer filename);
        [cbn; intros H; vm_compute in H; discriminate H|].
      destruct (check_fails CheckMagicNumber buffer filename);
        [cbn; intros H; vm_compute in H; discriminate H|].
      destruct (check_fails CheckExtension buffer filename);
        cbn; intros H; vm_compute in H; discriminate H.
    + intros Hmagic Hext. rewrite Hrest. cbn [first_failure].
      apply (magic_check_passes_iff buffer filename) in Hmagic.
      rewrite Hmagic. cbn [check_fails]. rewrite Hext.
      destruct buffer; [discriminate Hlen|reflexivity].
  - intros Hlen. unfold validate. rewrite Hlen. reflexivity.
Qed.

End ValidateProperties.

Lemma buffer_length_padded (head : Buffer) (n : Z) :
  0 <= n -> buffer_length (padded head n) = buffer_length head + n.
Proof.
  intros Hn. unfold buffer_length, padded.
  rewrite length_app, repeat_length, Nat2Z.inj_add, Z2Nat.id by exact Hn.
  reflexivity.
Qed.

(** A six-byte GIF header under the name [doc.pdf] is rejected for its
    format. *)
Lemma validate_checks_in_order_witness :
  validate (RT := rt_rejecting)
    (Buffer_from "GIF89a") (jstr "doc.pdf") = invalid error_format.
Proof.
  apply (proj2 (proj2 (validate_checks_in_order
                         (RT := rt_rejecting)
                         (Buffer_from "GIF89a") (jstr "doc.pdf")))).
  - vm_compute. split; [reflexivity | discriminate].
  - right. intros [rest H]. vm_compute in H. discriminate H.
Defined.

(** A PDF of exactly 52428800 bytes is valid; with one byte more it is
    too large. *)
Lemma validate_size_boundary_witness :
  validate (RT := rt_rejecting)
    (padded (Buffer_from "%PDF-") 52428795) (jstr "a.pdf")
  = {| valid := true; error := None |}
  /\ validate (RT := rt_rejecting)
       (padded (Buffer_from "%PDF-") 52428796) (jstr "a.pdf")
     = invalid error_too_large.
Proof.
  split.
  - apply (proj1 (validate_size_boundary
                    (RT := rt_rejecting)
                    (padded (Buffer_from "%PDF-") 52428795) (jstr "a.pdf"))).
    + rewrite buffer_length_padded by lia. reflexivity.
    + exists (repeat x20 (Z.to_nat 52428795)). reflexivity.
    + vm_compute. reflexivity.
  - apply (proj1 (proj2 (validate_size_boundary
                    (RT := rt_rejecting)
                    (padded (Buffer_from "%PDF-") 52428796) (jstr "a.pdf")))).
    rewrite buffer_length_padded by lia. reflexivity.
Defined.

(* ================================================================== *)
(** * Properties of [securityScan] *)
(* ================================================================== *)

Lemma Subsequence_filter_map {A B : Type} (f : A -> bool) (g : A -> B) (l : list A) :
  Subsequence (map g (filter f l)) (map g l).
Proof.
  induction l as [|x l IH]; simpl.
  - constructor.
  - destruct (f x); simpl; now constructor.
Qed.

Lemma Subsequence_In {A : Type} (l l' : list A) (x : A) :
  Subsequence l l' -> In x l -> In x l'.
Proof.
  induction 1 as [|y l l' _ IH|y l l' _ IH]; simpl; intuition.
Qed.

Lemma Subsequence_NoDup {A : Type} (l l' : list A) :
  Subsequence l l' -> NoDup l' -> NoDup l.
Proof.
  induction 1 as [|y l l' Hsub IH|y l l' Hsub IH]; intros Hnd.
  - constructor.
  - inversion Hnd; subst. now apply IH.
  - inversion Hnd as [|? ? Hnotin Hnd']; subst. constructor.
    + intros Hin. apply Hnotin. eapply Subsequence_In; eassumption.
    + now apply IH.
Qed.

Lemma threat_label_injective (k k' : ThreatKind) :
  threat_label k = threat_label k' -> k = k'.
Proof.
  destruct k, k'; intros H; try reflexivity; vm_compute in H; discriminate H.
Qed.

Lemma threat_order_complete (k : ThreatKind) : In k threat_order.
Proof. destruct k; simpl; tauto. Qed.

Lemma threat_labels_NoDup : NoDup (map threat_label threat_order).
Proof.
  unfold threat_order. cbn [map].
  repeat constructor; cbn [In]; intros H;
    repeat (destruct H as [H|H];
            [apply threat_label_injective in H; discriminate H|]);
    exact H.
Qed.

Section ScanProperties.
Context {RT : Runtime}.

(** The list the pushes of [securityScan] build is the list of the
    document's reading. *)
Lemma securityScan_reading (buffer : Buffer) :
  securityScan buffer = scan_reading buffer.
Proof.
  unfold securityScan, scan_reading, marker_matches, markers, threat_order.
  cbv zeta. cbn [existsb filter].
  destruct (includes (toLowerCase (toString_utf8 buffer)) (jstr "/javascript"));
  destruct (includes (toLowerCase (toString_utf8 buffer)) (jstr "/js"));
  destruct (includes (toLowerCase (toString_utf8 buffer)) (jstr "/aa"));
  destruct (includes (toLowerCase (toString_utf8 buffer)) (jstr "/openaction"));
  destruct (includes (toLowerCase (toString_utf8 buffer)) (jstr "/launch"));
  destruct (includes (toLowerCase (toString_utf8 buffer)) (jstr "/submitform"));
  reflexivity.
Qed.

Lemma scan_reading_listed (buffer : Buffer) :
  listed (scan_reading buffer)
  = map threat_label
      (filter (marker_matches (toLowerCase (toString_utf8 buffer))) threat_order).
Proof.
  unfold scan_reading, listed. cbv zeta.
  destruct (map threat_label _); reflexivity.
Qed.

Lemma scan_reading_safe (buffer : Buffer) :
  safe (scan_reading buffer) = true
  <-> filter (marker_matches (toLowerCase (toString_utf8 buffer))) threat_order = [].
Proof.
  unfold scan_reading. cbv zeta.
  destruct (filter _ threat_order) as [|k ks]; simpl; split;
    congruence || reflexivity.
Qed.

Lemma filter_nil_iff {A : Type} (f : A -> bool) (l : list A) :
  filter f l = [] <-> forall x, In x l -> f x = false.
Proof.
  induction l as [|x l IH]; simpl.
  - split; [intros _ y [] | reflexivity].
  - destruct (f x) eqn:E; split.
    + discriminate.
    + intros H. specialize (H x (or_introl eq_refl)). congruence.
    + intros H y [<-|Hy]; [exact E | now apply IH].
    + intros H. apply IH. intros y Hy. apply H. now right.
Qed.

(** A kind matches when one of its markers occurs in the text. *)
Lemma marker_matches_spec (text : JSString) (k : ThreatKind) :
  marker_matches text k = true
  <-> exists m pre post, In m (markers k) /\ text = pre ++ m ++ post.
Proof.
  unfold marker_matches. rewrite existsb_exists. split.
  - intros (m & Hm & Hinc). apply includes_spec in Hinc as (pre & post & ->).
    now exists m, pre, post.
  - intros (m & pre & post & Hm & ->). exists m. split; [exact Hm|].
    apply includes_spec. now exists pre, post.
Qed.

(** C3. The scanner tests the four marker families independently and
    collects every match: a threat kind is listed exactly when one of
    its markers occurs in the decoded, lower-cased text, whatever the
    other families do; [safe] is true exactly when no family matches;
    a family that matches alone gives [safe = false] and the list of
    that one kind; and when none matches the result is [safe = true]
    with no [threats] list. *)
Theorem securityScan_collects_every_match (buffer : Buffer) :
  let text := toLowerCase (toString_utf8 buffer) in
  let r := securityScan buffer in
  (forall k, In (threat_label k) (listed r) <-> marker_matches text k = true)
  /\ (safe r = true <-> forall k, marker_matches text k = false)
  /\ (forall k,
        marker_matches text k = true ->
        (forall k', k' <> k -> marker_matches text k' = false) ->
        r = {| safe := false; threats := Some [threat_label k] |})
  /\ ((forall k, marker_matches text k = false) ->
      r = {| safe := true; threats := None |}).
Proof.
  cbv zeta. rewrite securityScan_reading.
  set (text := toLowerCase (toString_utf8 buffer)).
  repeat split.
  - rewrite scan_reading_listed. fold text.
    intros Hin. apply in_map_iff in Hin as (k' & Hlabel & Hk').
    apply threat_label_injective in Hlabel. subst k'.
    now apply filter_In in Hk'.
  - intros Hk. rewrite scan_reading_listed. fold text.
    apply in_map. apply filter_In. split; [apply threat_order_complete | exact Hk].
  - intros Hsafe k. apply scan_reading_safe in Hsafe. fold text in Hsafe.
    apply (proj1 (filter_nil_iff _ _) Hsafe). apply threat_order_complete.
  - intros Hnone. apply scan_reading_safe. fold text.
    apply filter_nil_iff. intros k _. apply Hnone.
  - intros k Hk Hothers. unfold scan_reading. cbv zeta. fold text.
    unfold threat_order. cbn [filter].
    destruct k; rewrite Hk;
      rewrite ?(Hothers JavaScript), ?(Hothers AutoAction),
              ?(Hothers Launch), ?(Hothers FormSubmission) by discriminate;
      reflexivity.
  - intros Hnone. unfold scan_reading. cbv zeta. fold text.
    unfold threat_order. cbn [filter]. rewrite !Hnone. reflexivity.
Qed.

(** C10. The scan result has no [threats] field exactly when it is
    safe; otherwise the field is a non-empty list without repetition
    whose kinds follow the order JavaScript, Auto-action, Launch, Form
    submission. It is never the empty list. *)
Theorem securityScan_threats_field (buffer : Buffer) :
  let r := securityScan buffer in
  (threats r = None <-> safe r = true)
  /\ match threats r with
     | None => safe r = true
     | Some l =>
         safe r = false
         /\ l <> []
         /\ NoDup l
         /\ Subsequence l (map threat_label threat_order)
     end.
Proof.
  cbv zeta. rewrite securityScan_reading. unfold scan_reading. cbv zeta.
  pose proof (Subsequence_filter_map
                (marker_matches (toLowerCase (toString_utf8 buffer)))
                threat_label threat_order) as Hsub.
  destruct (map threat_label
              (filter (marker_matches (toLowerCase (toString_utf8 buffer)))
                 threat_order)) as [|t ts]; cbn [safe threats].
  - split; [split; reflexivity | reflexivity].
  - split; [split; discriminate|].
    split; [reflexivity|]. split; [discriminate|].
    split; [|exact Hsub].
    eapply Subsequence_NoDup; [exact Hsub | apply threat_labels_NoDup].
Qed.

End ScanProperties.

(** One marker of each kind alone in a small PDF, and a PDF with none,
    scanned with the example runtime. *)
Lemma securityScan_collects_every_match_witness :
  securityScan (RT := rt_rejecting) script_pdf
  = {| safe := false; threats := Some [jstr "JavaScript detected"] |}
  /\ securityScan (RT := rt_rejecting) openaction_pdf
     = {| safe := false; threats := Some [jstr "Auto-action detected"] |}
  /\ securityScan (RT := rt_rejecting) launch_pdf
     = {| safe := false; threats := Some [jstr "Launch action detected"] |}
  /\ securityScan (RT := rt_rejecting) submitform_pdf
     = {| safe := false; threats := Some [jstr "Form submission detected"] |}
  /\ securityScan (RT := rt_rejecting) sample_pdf
     = {| safe := true; threats := None |}.
Proof.
  split; [|split; [|split; [|split]]].
  - apply (proj1 (proj2 (proj2 (securityScan_collects_every_match
             (RT := rt_rejecting) script_pdf))) JavaScript);
      [vm_compute; reflexivity
      | intros [ | | | ] Hk; try (vm_compute; reflexivity); congruence].
  - apply (proj1 (proj2 (proj2 (securityScan_collects_every_match
             (RT := rt_rejecting) openaction_pdf))) AutoAction);
      [vm_compute; reflexivity
      | intros [ | | | ] Hk; try (vm_compute; reflexivity); congruence].
  - apply (proj1 (proj2 (proj2 (securityScan_collects_every_match
             (RT := rt_rejecting) launch_pdf))) Launch);
      [vm_compute; reflexivity
      | intros [ | | | ] Hk; try (vm_compute; reflexivity); congruence].
  - apply (proj1 (proj2 (proj2 (securityScan_collects_every_match
             (RT := rt_rejecting) submitform_pdf))) FormSubmission);
      [vm_compute; reflexivity
      | intros [ | | | ] Hk; try (vm_compute; reflexivity); congruence].
  - apply (proj2 (proj2 (proj2 (securityScan_collects_every_match
             (RT := rt_rejecting) sample_pdf)))).
    intros [ | | | ]; vm_compute; reflexivity.
Defined.

(** Two markers at once are both listed, in the fixed order. *)
Example securityScan_two_threats :
  securityScan (RT := rt_rejecting)
    (Buffer_from "%PDF-1.4 << /S /SubmitForm >> << /AA << /O 4 0 R >> >>")
  = {| safe := false;
       threats := Some [jstr "Auto-action detected"; jstr "Form submission detected"] |}.
Proof. vm_compute. reflexivity. Qed.

(* ================================================================== *)
(** * Properties of [extractMetadata] *)
(* ================================================================== *)

Section ExtractProperties.
Context {RT : Runtime}.

Lemma extractMetadata_run (buffer : Buffer) (log : list Event) :
  extractMetadata buffer log
  = (Returned (identifiers buffer), log ++ extract_events buffer).
Proof.
  unfold identifiers, extract_events, extractMetadata,
    try_catch, bind, call, lift, emit, ret.
  destruct (pdfjs_info buffer) as [info|e]; cbn.
  - destruct info; cbn; rewrite <- ?app_assoc; reflexivity.
  - rewrite <- app_assoc. reflexivity.
Qed.

(** C6. [extractMetadata] returns for every buffer and every log: it
    never throws. When the parser throws, when the info value is
    [undefined] or [null], and when the info dictionary has none of the
    four fields, the result is the all-absent identifiers; in the first
    two cases the failure is logged with [console.error]. *)
Theorem extractMetadata_never_raises (buffer : Buffer) (log : list Event) :
  (exists m log', extractMetadata buffer log = (Returned m, log'))
  /\ (forall e, pdfjs_info buffer = Thrown e ->
        extractMetadata buffer log
        = (Returned no_metadata, log ++ [EvPdfjs; EvConsoleError]))
  /\ (forall info, pdfjs_info buffer = Returned info ->
        info = JUndefined \/ info = JNull ->
        extractMetadata buffer log
        = (Returned no_metadata, log ++ [EvPdfjs; EvConsoleError]))
  /\ (forall info, pdfjs_info buffer = Returned info ->
        lacks_fields info ->
        extractMetadata buffer log = (Returned no_metadata, log ++ [EvPdfjs])).
Proof.
  split; [|split; [|split]].
  - rewrite extractMetadata_run. eauto.
  - intros e He.
    unfold extractMetadata, try_catch, bind, call, lift, emit, ret.
    rewrite He. cbn. rewrite <- app_assoc. reflexivity.
  - intros info Hinfo Hnone.
    unfold extractMetadata, try_catch, bind, call, lift, emit, ret.
    rewrite Hinfo. destruct Hnone as [-> | ->]; cbn;
      rewrite <- app_assoc; reflexivity.
  - intros info Hinfo Hlacks.
    unfold extractMetadata, try_catch, bind, call, lift, emit, ret.
    rewrite Hinfo. cbn [fst snd].
    rewrite (Hlacks (jstr "Subject")), (Hlacks (jstr "Creator")),
            (Hlacks (jstr "Keywords")), (Hlacks (jstr "Producer"))
      by (cbn [In]; tauto).
    reflexivity.
Qed.

End ExtractProperties.

(** The example parser rejecting a buffer, and one finding an info
    dictionary that has only the format version: both give the
    all-absent identifiers. *)
Lemma extractMetadata_never_raises_witness :
  extractMetadata (RT := rt_rejecting) sample_pdf []
  = (Returned no_metadata, [EvPdfjs; EvConsoleError])
  /\ extractMetadata
       (RT := ascii_runtime
                (parser_finds (JObj [(jstr "PDFFormatVersion", JStr (jstr "1.4"))])) None)
       sample_pdf []
     = (Returned no_metadata, [EvPdfjs]).
Proof.
  split.
  - apply (proj1 (proj2 (extractMetadata_never_raises
                           (RT := rt_rejecting) sample_pdf []))
             {| message := jstr "Invalid PDF structure." |}).
    reflexivity.
  - apply (proj2 (proj2 (proj2 (extractMetadata_never_raises
             (RT := ascii_runtime
                      (parser_finds (JObj [(jstr "PDFFormatVersion", JStr (jstr "1.4"))]))
                      None)
             sample_pdf [])))
             (JObj [(jstr "PDFFormatVersion", JStr (jstr "1.4"))])).
    + reflexivity.
    + intros k Hk. cbn [In] in Hk.
      destruct Hk as [<-|[<-|[<-|[<-|[]]]]]; vm_compute; reflexivity.
Defined.

(* ================================================================== *)
(** * Properties of the handler *)
(* ================================================================== *)

Section HandlerProperties.
Context {RT : Runtime}.

Local Arguments validate : simpl never.
Local Arguments securityScan : simpl never.
Local Arguments success_body : simpl never.
Local Arguments verifyUrl : simpl never.
Local Arguments extractMetadata : simpl never.

Ltac run_handler :=
  unfold calls; unfold run, verify_handler, try_catch, bind, call, emit, lift, ret.

(** The extractor logs the parser call, and [console.error] when it
    caught a failure. *)
Lemma extract_events_cases (buffer : Buffer) :
  extract_events buffer = [EvPdfjs]
  \/ extract_events buffer = [EvPdfjs; EvConsoleError].
Proof.
  unfold extract_events, extractMetadata, try_catch, bind, call, lift, emit, ret.
  destruct (pdfjs_info buffer) as [info|e]; cbn; [|now right].
  destruct info; cbn; auto.
Qed.

(** An identifier is a truthy value or absent. *)
Lemma documentId_absent_iff (buffer : Buffer) :
  truthy (documentId (identifiers buffer)) = false
  <-> documentId (identifiers buffer) = JUndefined.
Proof.
  unfold identifiers, extractMetadata, try_catch, bind, call, lift, emit, ret.
  destruct (pdfjs_info buffer) as [info|e]; cbn; [|split; reflexivity].
  destruct (get info (jstr "Subject")) as [subject|e1]; cbn; [|split; reflexivity].
  destruct (get info (jstr "Creator")); cbn; [|split; reflexivity].
  destruct (get info (jstr "Keywords")); cbn; [|split; reflexivity].
  destruct (get info (jstr "Producer")); cbn; [|split; reflexivity].
  unfold js_or. destruct (truthy subject) eqn:E; [|split; reflexivity].
  split; [congruence|]. intros ->. discriminate E.
Qed.

(** C9. A request without a file part is answered with 400, status
    [ERROR] and the no-file message, after the single call
    [request.file()]: no validator, scanner, extractor, parser or
    authority call is made. *)
Theorem no_file_rejected_first (w : World) :
  request_file w = Returned None ->
  fst (run w)
  = Returned
      {| code := 400;
         body := JObj [(jstr "status", str "ERROR");
                       (jstr "message",
                        str "No file uploaded. Please upload a PDF document.")] |}
  /\ calls w = [EvRequestFile]
  /\ ~ In EvValidate (calls w)
  /\ ~ In EvSecurityScan (calls w)
  /\ ~ In EvExtractMetadata (calls w)
  /\ (forall url, ~ In (EvFetch url) (calls w)).
Proof.
  intros Hfile.
  assert (Hrun : run w = (Returned reply_no_file, [EvRequestFile])).
  { run_handler. rewrite Hfile. reflexivity. }
  unfold calls. rewrite Hrun. cbn [fst snd].
  split; [reflexivity|]. split; [reflexivity|].
  repeat split; intros; cbn [In]; intuition discriminate.
Qed.

(** C1. No stage runs downstream of a terminal failure. When the
    validator finds the submission invalid, the calls of the request
    are [request.file()], [toBuffer()] and [validate] only, and the
    reply is the validation failure. When the scanner finds it unsafe,
    they are those and [securityScan] only. The extractor runs only for
    a submission that both passed, and the authority is called only for
    one that both passed and whose document id is present, at the URL
    built from that id. *)
Theorem no_stage_after_terminal_failure (w : World) :
  (forall data buffer,
     submission w data buffer ->
     valid (validate buffer (upload_filename data)) = false ->
     run w = (Returned (reply_validation_failed
                          (validate buffer (upload_filename data))),
              [EvRequestFile; EvToBuffer; EvValidate])
     /\ ~ ran EvSecurityScan w /\ ~ ran EvExtractMetadata w
     /\ ~ ran EvPdfjs w /\ forall url, ~ ran (EvFetch url) w)
  /\ (forall data buffer,
     submission w data buffer ->
     valid (validate buffer (upload_filename data)) = true ->
     safe (securityScan buffer) = false ->
     run w = (Returned (reply_security_failed (securityScan buffer)),
              [EvRequestFile; EvToBuffer; EvValidate; EvSecurityScan])
     /\ ~ ran EvExtractMetadata w
     /\ ~ ran EvPdfjs w /\ forall url, ~ ran (EvFetch url) w)
  /\ (ran EvExtractMetadata w \/ ran EvPdfjs w ->
      exists data buffer,
        submission w data buffer
        /\ valid (validate buffer (upload_filename data)) = true
        /\ safe (securityScan buffer) = true)
  /\ (forall url, ran (EvFetch url) w ->
      exists data buffer,
        submission w data buffer
        /\ valid (validate buffer (upload_filename data)) = true
        /\ safe (securityScan buffer) = true
        /\ truthy (documentId (identifiers buffer)) = true
        /\ verifyUrl (identifiers buffer) = Returned url).
Proof.
  split; [|split; [|split]].
  - intros data buffer [Hfile Hbuf] Hvalid.
    assert (Hrun : run w = (Returned (reply_validation_failed
                                        (validate buffer (upload_filename data))),
                            [EvRequestFile; EvToBuffer; EvValidate])).
    { run_handler. rewrite Hfile. cbn. rewrite Hbuf. cbn. rewrite Hvalid.
      reflexivity. }
    split; [exact Hrun|]. unfold ran, calls. rewrite Hrun. cbn [snd In].
    repeat split; intros; intuition congruence.
  - intros data buffer [Hfile Hbuf] Hvalid Hsafe.
    assert (Hrun : run w = (Returned (reply_security_failed (securityScan buffer)),
                            [EvRequestFile; EvToBuffer; EvValidate; EvSecurityScan])).
    { run_handler. rewrite Hfile. cbn. rewrite Hbuf. cbn. rewrite Hvalid. cbn.
      rewrite Hsafe. reflexivity. }
    split; [exact Hrun|]. unfold ran, calls. rewrite Hrun. cbn [snd In].
    repeat split; intros; intuition congruence.
  - unfold ran. run_handler.
    destruct (request_file w) as [[data|]|e] eqn:Hfile; cbn;
      [|intuition congruence|intuition congruence].
    destruct (upload_toBuffer data) as [buffer|e] eqn:Hbuf; cbn;
      [|intuition congruence].
    destruct (valid (validate buffer (upload_filename data))) eqn:Hvalid; cbn;
      [|intuition congruence].
    destruct (safe (securityScan buffer)) eqn:Hsafe; cbn;
      [|intuition congruence].
    intros _. exists data, buffer. unfold submission. auto.
  - intros url. unfold ran. run_handler.
    destruct (request_file w) as [[data|]|e] eqn:Hfile; cbn;
      [|intuition congruence|intuition congruence].
    destruct (upload_toBuffer data) as [buffer|e] eqn:Hbuf; cbn;
      [|intuition congruence].
    destruct (valid (validate buffer (upload_filename data))) eqn:Hvalid; cbn;
      [|intuition congruence].
    destruct (safe (securityScan buffer)) eqn:Hsafe; cbn;
      [|intuition congruence].
    rewrite extractMetadata_run.
    destruct (truthy (documentId (identifiers buffer))) eqn:Hdoc; cbn.
    + intros Hin.
      assert (Hurl : verifyUrl (identifiers buffer) = Returned url).
      { destruct (verifyUrl (identifiers buffer)) as [u|e0]; cbn in Hin;
          [destruct (fetch w u) as [resp|e]; cbn in Hin;
           [destruct (response_ok resp); cbn in Hin;
            [destruct (response_json resp) as [vr|e]; cbn in Hin;
             [destruct (success_body w (identifiers buffer) vr); cbn in Hin|]
            |destruct (response_status resp =? 404); cbn in Hin]|]|];
          repeat (destruct Hin as [Hin|Hin]; try discriminate Hin);
          apply in_app_or in Hin as [Hin|Hin];
          try (destruct (extract_events_cases buffer) as [Hev|Hev];
               rewrite Hev in Hin; cbn in Hin; intuition congruence);
          cbn in Hin;
          repeat (destruct Hin as [Hin|Hin]; try discriminate Hin);
          try contradiction; congruence. }
      exists data, buffer. unfold submission. auto.
    + intros Hin. exfalso.
      repeat (destruct Hin as [Hin|Hin]; try discriminate Hin).
      destruct (extract_events_cases buffer) as [Hev|Hev];
        rewrite Hev in Hin; cbn in Hin; intuition congruence.
Qed.

(** C2. For a submission that passed validation and scanning, the three
    ambiguous states are replies with code 200 and status [UNKNOWN],
    each with its own reason: no document id in the metadata gives
    "No document ID found in metadata" with
    [details.isAcadCertDocument = false]; a 404 of the authority, asked
    at the URL built from the document id, gives
    "Document ID not recognized"; any other response outside 200-299
    gives "Verification service unavailable" with the authority's
    status as [details.httpStatus]. The three reasons differ pairwise. *)
Theorem ambiguous_states_are_200_UNKNOWN (w : World) (data : Upload) (buffer : Buffer) :
  submission w data buffer ->
  valid (validate buffer (upload_filename data)) = true ->
  safe (securityScan buffer) = true ->
  (documentId (identifiers buffer) = JUndefined ->
   fst (run w)
   = Returned
       {| code := 200;
          body := JObj [(jstr "status", str "UNKNOWN");
                        (jstr "valid", JBool false);
                        (jstr "message",
                         str "This document does not appear to be an AcadCert credential");
                        (jstr "reason", str "No document ID found in metadata");
                        (jstr "details",
                         JObj [(jstr "isAcadCertDocument", JBool false)])] |})
  /\ (forall url verifyResponse,
        documentId (identifiers buffer) <> JUndefined ->
        verifyUrl (identifiers buffer) = Returned url ->
        fetch w url = Returned verifyResponse ->
        response_status verifyResponse = 404 ->
        fst (run w)
        = Returned
            {| code := 200;
               body := JObj [(jstr "status", str "UNKNOWN");
                             (jstr "valid", JBool false);
                             (jstr "message", str "Document not found in AcadCert system");
                             (jstr "reason", str "Document ID not recognized");
                             (jstr "details",
                              JObj [(jstr "documentId",
                                     documentId (identifiers buffer))])] |})
  /\ (forall url verifyResponse,
        documentId (identifiers buffer) <> JUndefined ->
        verifyUrl (identifiers buffer) = Returned url ->
        fetch w url = Returned verifyResponse ->
        response_ok verifyResponse = false ->
        response_status verifyResponse <> 404 ->
        fst (run w)
        = Returned
            {| code := 200;
               body := JObj [(jstr "status", str "UNKNOWN");
                             (jstr "valid", JBool false);
                             (jstr "message",
                              str "Unable to verify document with issuing institution");
                             (jstr "reason", str "Verification service unavailable");
                             (jstr "details",
                              JObj [(jstr "documentId",
                                     documentId (identifiers buffer));
                                    (jstr "httpStatus",
                                     JNum (number_of_Z
                                             (response_status verifyResponse)))])] |})
  /\ (jstr "No document ID found in metadata" <> jstr "Document ID not recognized"
      /\ jstr "No document ID found in metadata"
         <> jstr "Verification service unavailable"
      /\ jstr "Document ID not recognized" <> jstr "Verification service unavailable").
Proof.
  intros [Hfile Hbuf] Hvalid Hsafe.
  assert (Hpresent : documentId (identifiers buffer) <> JUndefined ->
                     truthy (documentId (identifiers buffer)) = true).
  { intros Hdoc. destruct (truthy (documentId (identifiers buffer))) eqn:E;
      [reflexivity|]. now apply documentId_absent_iff in E. }
  split; [|split; [|split]];
    [| | |repeat split; intros H; vm_compute in H; discriminate H].
  - intros Habsent. apply documentId_absent_iff in Habsent.
    run_handler. rewrite Hfile. cbn. rewrite Hbuf. cbn. rewrite Hvalid. cbn.
    rewrite Hsafe. cbn. rewrite extractMetadata_run, Habsent. reflexivity.
  - intros url verifyResponse Hdoc Hurl Hfetch Hstatus. apply Hpresent in Hdoc.
    run_handler. rewrite Hfile. cbn. rewrite Hbuf. cbn. rewrite Hvalid. cbn.
    rewrite Hsafe. cbn. rewrite extractMetadata_run, Hdoc. cbn.
    rewrite Hurl. cbn.
    rewrite Hfetch. unfold response_ok. rewrite Hstatus. reflexivity.
  - intros url verifyResponse Hdoc Hurl Hfetch Hok Hstatus. apply Hpresent in Hdoc.
    run_handler. rewrite Hfile. cbn. rewrite Hbuf. cbn. rewrite Hvalid. cbn.
    rewrite Hsafe. cbn. rewrite extractMetadata_run, Hdoc. cbn.
    rewrite Hurl. cbn.
    rewrite Hfetch, Hok. cbn.
    apply Z.eqb_neq in Hstatus. rewrite Hstatus. reflexivity.
Qed.

(** An exception of [request.file()], [toBuffer()], the template
    literal of the URL, [fetch] or [response.json()] reaches the
    handler's [catch]: the reply is 500 with the generic message, and
    the logger is called last. *)
Lemma thrown_call_is_internal_error (w : World) :
  (forall e, request_file w = Thrown e ->
     run w = (Returned reply_internal_error, [EvRequestFile; EvLogError]))
  /\ (forall data e, request_file w = Returned (Some data) ->
        upload_toBuffer data = Thrown e ->
        run w = (Returned reply_internal_error,
                 [EvRequestFile; EvToBuffer; EvLogError]))
  /\ (forall data buffer e,
        submission w data buffer ->
        valid (validate buffer (upload_filename data)) = true ->
        safe (securityScan buffer) = true ->
        documentId (identifiers buffer) <> JUndefined ->
        verifyUrl (identifiers buffer) = Thrown e ->
        run w = (Returned reply_internal_error,
                 calls_to_extractor buffer ++ [EvLogError]))
  /\ (forall data buffer url e,
        submission w data buffer ->
        valid (validate buffer (upload_filename data)) = true ->
        safe (securityScan buffer) = true ->
        documentId (identifiers buffer) <> JUndefined ->
        verifyUrl (identifiers buffer) = Returned url ->
        fetch w url = Thrown e ->
        fst (run w) = Returned reply_internal_error)
  /\ (forall data buffer url verifyResponse e,
        submission w data buffer ->
        valid (validate buffer (upload_filename data)) = true ->
        safe (securityScan buffer) = true ->
        documentId (identifiers buffer) <> JUndefined ->
        verifyUrl (identifiers buffer) = Returned url ->
        fetch w url = Returned verifyResponse ->
        response_ok verifyResponse = true ->
        response_json verifyResponse = Thrown e ->
        fst (run w) = Returned reply_internal_error).
Proof.
  assert (Hpresent : forall buffer,
            documentId (identifiers buffer) <> JUndefined ->
            truthy (documentId (identifiers buffer)) = true).
  { intros buffer Hdoc. destruct (truthy (documentId (identifiers buffer))) eqn:E;
      [reflexivity|]. now apply documentId_absent_iff in E. }
  split; [|split; [|split; [|split]]].
  - intros e Hfile. run_handler. rewrite Hfile. reflexivity.
  - intros data e Hfile Hbuf. run_handler. rewrite Hfile. cbn. rewrite Hbuf.
    reflexivity.
  - intros data buffer e [Hfile Hbuf] Hvalid Hsafe Hdoc Hurl.
    apply Hpresent in Hdoc.
    run_handler. rewrite Hfile. cbn. rewrite Hbuf. cbn. rewrite Hvalid. cbn.
    rewrite Hsafe. cbn. rewrite extractMetadata_run, Hdoc. cbn.
    rewrite Hurl. reflexivity.
  - intros data buffer url e [Hfile Hbuf] Hvalid Hsafe Hdoc Hurl Hfetch.
    apply Hpresent in Hdoc.
    run_handler. rewrite Hfile. cbn. rewrite Hbuf. cbn. rewrite Hvalid. cbn.
    rewrite Hsafe. cbn. rewrite extractMetadata_run, Hdoc. cbn.
    rewrite Hurl. cbn. rewrite Hfetch. reflexivity.
  - intros data buffer url verifyResponse e [Hfile Hbuf] Hvalid Hsafe Hdoc Hurl Hfetch
           Hok Hjson.
    apply Hpresent in Hdoc.
    run_handler. rewrite Hfile. cbn. rewrite Hbuf. cbn. rewrite Hvalid. cbn.
    rewrite Hsafe. cbn. rewrite extractMetadata_run, Hdoc. cbn.
    rewrite Hurl. cbn. rewrite Hfetch, Hok. cbn. rewrite Hjson. reflexivity.
Qed.

End HandlerProperties.

(** A request without a file part, served by the example runtime. *)
Lemma no_file_rejected_first_witness :
  fst (run (world_without_file (rt := rt_plain)))
  = Returned
      {| code := 400;
         body := JObj [(jstr "status", str "ERROR");
                       (jstr "message",
                        str "No file uploaded. Please upload a PDF document.")] |}
  /\ calls (world_without_file (rt := rt_plain)) = [EvRequestFile].
Proof.
  pose proof (no_file_rejected_first (RT := rt_plain) world_without_file eq_refl)
    as (Hreply & Hcalls & _).
  split; [exact Hreply | exact Hcalls].
Defined.

(** End to end: a GIF uploaded as [doc.pdf] is answered 400, status
    [INVALID], reason "File validation failed". *)
Example gif_named_pdf_is_rejected :
  run world_gif
  = (Returned
       {| code := 400;
          body := JObj [(jstr "status", str "INVALID");
                        (jstr "message",
                         str "Invalid file format. Only PDF files are accepted.");
                        (jstr "reason", str "File validation failed")] |},
     [EvRequestFile; EvToBuffer; EvValidate]).
Proof. vm_compute. reflexivity. Qed.

(** A GIF named [doc.pdf] stops at the validator; a PDF with a script
    stops at the scanner. *)
Lemma no_stage_after_terminal_failure_witness :
  calls world_gif = [EvRequestFile; EvToBuffer; EvValidate]
  /\ calls world_script = [EvRequestFile; EvToBuffer; EvValidate; EvSecurityScan].
Proof.
  split.
  - pose proof (proj1 (no_stage_after_terminal_failure world_gif)
                  (upload_of (jstr "doc.pdf") (Buffer_from "GIF89a"))
                  (Buffer_from "GIF89a")
                  (conj eq_refl eq_refl) eq_refl) as [Hrun _].
    unfold calls. rewrite Hrun. reflexivity.
  - pose proof (proj1 (proj2 (no_stage_after_terminal_failure world_script))
                  (upload_of (jstr "doc.pdf") script_pdf) script_pdf
                  (conj eq_refl eq_refl) eq_refl eq_refl) as [Hrun _].
    unfold calls. rewrite Hrun. reflexivity.
Defined.

(** A valid, safe PDF without a Subject; one with a Subject the
    authority does not know (404); and one the authority fails on
    (503). *)
Lemma ambiguous_states_are_200_UNKNOWN_witness :
  (code_of (fst (run world_plain)) = 200
   /\ reason_of (fst (run world_plain)) = str "No document ID found in metadata")
  /\ (code_of (fst (run world_unknown_id)) = 200
      /\ reason_of (fst (run world_unknown_id)) = str "Document ID not recognized")
  /\ (code_of (fst (run world_unavailable)) = 200
      /\ reason_of (fst (run world_unavailable))
         = str "Verification service unavailable").
Proof.
  split; [|split].
  - rewrite (proj1 (ambiguous_states_are_200_UNKNOWN world_plain
                      (upload_of (jstr "diploma.pdf") sample_pdf) sample_pdf
                      (conj eq_refl eq_refl) eq_refl eq_refl) eq_refl).
    split; reflexivity.
  - rewrite (proj1 (proj2 (ambiguous_states_are_200_UNKNOWN world_unknown_id
                      (upload_of (jstr "diploma.pdf") sample_pdf) sample_pdf
                      (conj eq_refl eq_refl) eq_refl eq_refl))
               _ (Build_FetchResponse (RT := rt_credential) 404 not_json)
               ltac:(vm_compute; discriminate) eq_refl eq_refl eq_refl).
    split; reflexivity.
  - rewrite (proj1 (proj2 (proj2 (ambiguous_states_are_200_UNKNOWN world_unavailable
                      (upload_of (jstr "diploma.pdf") sample_pdf) sample_pdf
                      (conj eq_refl eq_refl) eq_refl eq_refl)))
               _ (Build_FetchResponse (RT := rt_credential) 503 not_json)
               ltac:(vm_compute; discriminate) eq_refl eq_refl eq_refl
               ltac:(discriminate)).
    split; reflexivity.
Defined.

(* ================================================================== *)
(** * Properties of [getStatusMessage] *)
(* ================================================================== *)

Section MessageProperties.
Context {RT : Runtime}.

(** Reading a property of a value that is neither [undefined] nor
    [null] returns. *)
Lemma get_prop (v : JSValue Number) (k k' : JSString) (x : JSValue Number) :
  get v k = Returned x -> get v k' = Returned (prop v k').
Proof.
  unfold prop. destruct v; cbn; intros H; try discriminate H; reflexivity.
Qed.

(** [errors && errors.length > 0] on a list: it has an element. *)
Lemma has_errors_list (result : JSValue Number) (es : list (JSValue Number)) :
  get result (jstr "errors") = Returned (JArr es) ->
  has_errors result = Returned (match es with [] => false | _ :: _ => true end).
Proof.
  intros Herrors. unfold has_errors. rewrite Herrors. cbn [obind truthy get].
  rewrite (proj2 (jseqb_eq _ _) eq_refl). cbn [gt0].
  rewrite number_gt0_of_Z. destruct es; reflexivity.
Qed.

(** On an absent list of errors the test is false. *)
Lemma has_errors_absent (result errors : JSValue Number) :
  get result (jstr "errors") = Returned errors ->
  errors = JUndefined \/ errors = JNull ->
  has_errors result = Returned false.
Proof.
  intros Herrors Habsent. unfold has_errors. rewrite Herrors.
  destruct Habsent as [-> | ->]; reflexivity.
Qed.

(** The message the code gives, for an answer whose [errors] is a list
    or absent. *)
Lemma getStatusMessage_cases (result status v errors : JSValue Number) :
  get result (jstr "status") = Returned status ->
  get result (jstr "valid") = Returned v ->
  get result (jstr "errors") = Returned errors ->
  list_or_absent errors ->
  getStatusMessage result = message_by_precedence status v errors.
Proof.
  intros Hstatus Hvalid Herrors Hlist.
  unfold getStatusMessage, message_by_precedence. rewrite Hstatus, Hvalid. cbn [obind].
  destruct (is_string status (jstr "ACTIVE")); cbn [obind andb];
    (destruct (truthy v) eqn:Hv; cbn [obind negb]; [try reflexivity|]);
    (destruct (is_string status (jstr "REVOKED")); [reflexivity|]);
    (destruct (is_string status (jstr "SUPERSEDED")); [reflexivity|]);
    try reflexivity;
    (destruct Hlist as [-> | [-> | [es ->]]];
     [rewrite (has_errors_absent result JUndefined Herrors) by auto; reflexivity
     |rewrite (has_errors_absent result JNull Herrors) by auto; reflexivity
     |rewrite (has_errors_list result es Herrors), Herrors;
      destruct es; reflexivity]).
Qed.

Lemma get_opt_returns (v : JSValue Number) (k : JSString) :
  exists x, get_opt v k = Returned x.
Proof. destruct v; cbn; eauto. Qed.

Lemma get_truthy_returns (v : JSValue Number) (k : JSString) :
  truthy v = true -> exists x, get v k = Returned x.
Proof. destruct v; cbn; intros H; try discriminate H; eauto. Qed.

Lemma get0_truthy_returns (v : JSValue Number) :
  truthy v = true -> exists x, get0 v = Returned x.
Proof.
  destruct v as [| | | |s| |]; cbn; intros H; try discriminate H; eauto.
  destruct s; [discriminate H | eauto].
Qed.

Lemma check_flag_returns (result x : JSValue Number) (k0 k : JSString) :
  get result k0 = Returned x -> exists flag, check_flag result k = Returned flag.
Proof.
  intros H. unfold check_flag. rewrite (get_prop _ _ _ _ H). cbn [obind].
  destruct (get_opt_returns (prop result (jstr "checks")) k) as [flag ->].
  cbn [obind]. eauto.
Qed.

Lemma name_or_unknown_returns (result x : JSValue Number) (k0 field k : JSString) :
  get result k0 = Returned x ->
  exists name, name_or_unknown result field k = Returned name.
Proof.
  intros H. unfold name_or_unknown. rewrite (get_prop _ _ _ _ H). cbn [obind].
  destruct (get_opt_returns (prop result field) k) as [name ->].
  cbn [obind]. eauto.
Qed.

(** The conversions of the primitives never throw. *)
Lemma toStringJS_string (s : JSString) : toStringJS (JStr s) = Returned s.
Proof. reflexivity. Qed.

(** An object with an own [toString] property cannot be converted, and
    neither can a list that holds one before any other failure. *)
Lemma toStringJS_own_toString (props : list (JSString * JSValue Number)) :
  has_own (jstr "toString") props = true ->
  toStringJS (JObj props) = Thrown TypeError_primitive
  /\ gt0 (JObj props) = Thrown TypeError_primitive.
Proof. intros H. cbn [toStringJS gt0]. rewrite H. split; reflexivity. Qed.

(** [errors && errors.length > 0] on an answer that is neither
    [undefined] nor [null]. *)
Lemma has_errors_prop (result x : JSValue Number) (k0 : JSString) :
  get result k0 = Returned x ->
  has_errors result
  = if truthy (prop result (jstr "errors"))
    then gt0 (prop (prop result (jstr "errors")) (jstr "length"))
    else Returned false.
Proof.
  intros H. unfold has_errors. rewrite (get_prop _ _ _ _ H). cbn [obind].
  destruct (truthy (prop result (jstr "errors"))) eqn:E; [|reflexivity].
  destruct (get_truthy_returns _ (jstr "length") E) as [len Hlen].
  change (prop (prop result (jstr "errors")) (jstr "length"))
    with (match get (prop result (jstr "errors")) (jstr "length") with
          | Returned len => len
          | Thrown _ => JUndefined
          end).
  rewrite Hlen. reflexivity.
Qed.

(** The test succeeds on truthy [errors] only. *)
Lemma has_errors_truthy (result : JSValue Number) :
  has_errors result = Returned true -> truthy (prop result (jstr "errors")) = true.
Proof.
  unfold has_errors, prop.
  destruct (get result (jstr "errors")) as [errors|e]; cbn [obind];
    [|intros H; discriminate H].
  destruct (truthy errors); [reflexivity | intros H; discriminate H].
Qed.

(** On a list of errors, or none, the test returns. *)
Lemma has_errors_list_or_absent (result errors : JSValue Number) :
  get result (jstr "errors") = Returned errors ->
  list_or_absent errors ->
  exists b, has_errors result = Returned b.
Proof.
  intros Herrors [-> | [-> | [es ->]]].
  - rewrite (has_errors_absent result JUndefined Herrors) by auto. eauto.
  - rewrite (has_errors_absent result JNull Herrors) by auto. eauto.
  - rewrite (has_errors_list result es Herrors). eauto.
Qed.

(** On an answer that is neither [undefined] nor [null] and has no
    error to print, [getStatusMessage] returns. *)
Lemma getStatusMessage_returns (result x : JSValue Number) (k0 : JSString) :
  get result k0 = Returned x ->
  has_errors result = Returned false ->
  exists msg, getStatusMessage result = Returned msg.
Proof.
  intros H Hnone. unfold getStatusMessage.
  rewrite (get_prop _ _ (jstr "status") _ H), (get_prop _ _ (jstr "valid") _ H),
          Hnone.
  cbn [obind].
  destruct (is_string (prop result (jstr "status")) (jstr "ACTIVE")); cbn [obind];
    (destruct (truthy (prop result (jstr "valid"))); cbn [obind negb]; eauto);
    (destruct (is_string (prop result (jstr "status")) (jstr "REVOKED")); eauto);
    (destruct (is_string (prop result (jstr "status")) (jstr "SUPERSEDED")); eauto).
Qed.

(** On an answer that is neither [undefined] nor [null],
    [mapVerificationDetails] returns when the test of [errors] does, and
    throws what it throws. *)
Lemma mapVerificationDetails_outcome (result x : JSValue Number) (k0 : JSString) :
  get result k0 = Returned x ->
  match has_errors result with
  | Returned _ => exists details, mapVerificationDetails result = Returned details
  | Thrown e => mapVerificationDetails result = Thrown e
  end.
Proof.
  intros H. unfold mapVerificationDetails.
  rewrite (get_prop _ _ (jstr "status") _ H), (get_prop _ _ (jstr "valid") _ H),
          (get_prop _ _ (jstr "errors") _ H), (get_prop _ _ (jstr "checks") _ H),
          (get_prop _ _ (jstr "revokedAt") _ H), (get_prop _ _ (jstr "revokedBy") _ H),
          (get_prop _ _ (jstr "reason") _ H).
  destruct (has_errors result) as [b|e]; cbn [obind];
    (destruct (is_string (prop result (jstr "status")) (jstr "REVOKED")); cbn [obind];
     try destruct (truthy (prop result (jstr "revokedAt"))); cbn [obind];
     destruct (truthy (prop result (jstr "checks"))); cbn [obind];
     try destruct b; cbn [obind]; eauto).
Qed.

(** The body of the verified path, for an answer that is neither
    [undefined] nor [null]. When [getStatusMessage] and
    [mapVerificationDetails] return, so does the body: [status] and
    [valid] are the answer's, the message is that of [getStatusMessage],
    [receipt.result] follows [valid], and the clock and the random bytes
    enter [verifiedAt], [receipt.verifiedAt] and [receipt.id]. When one
    of the two throws, so does the body. *)
Lemma success_body_fields (w : World) (metadata : Metadata)
    (result x : JSValue Number) (k0 : JSString) :
  get result k0 = Returned x ->
  match getStatusMessage result, mapVerificationDetails result with
  | Returned msg, Returned details =>
      exists payload,
        success_body w metadata result = Returned payload
        /\ prop payload (jstr "status") = prop result (jstr "status")
        /\ prop payload (jstr "valid") = prop result (jstr "valid")
        /\ prop payload (jstr "message") = JStr msg
        /\ prop2 payload (jstr "receipt") (jstr "result")
           = (if truthy (prop result (jstr "valid")) then str "VALID" else str "INVALID")
        /\ prop payload (jstr "verifiedAt") = JStr (Date_now_iso w 0)
        /\ prop2 payload (jstr "receipt") (jstr "verifiedAt") = JStr (Date_now_iso w 1)
        /\ prop2 payload (jstr "receipt") (jstr "id")
           = JStr (jstr "rcpt_" ++ toString_hex (randomBytes w 12))
  | _, _ => exists e, success_body w metadata result = Thrown e
  end.
Proof.
  intros H. unfold success_body.
  rewrite (get_prop _ _ (jstr "status") _ H), (get_prop _ _ (jstr "valid") _ H),
          (get_prop _ _ (jstr "institution") _ H),
          (get_prop _ _ (jstr "document") _ H).
  destruct (check_flag_returns result x k0 (jstr "signatureValid") H) as [f1 ->].
  destruct (check_flag_returns result x k0 (jstr "authorityValid") H) as [f2 ->].
  destruct (check_flag_returns result x k0 (jstr "notRevoked") H) as [f3 ->].
  destruct (name_or_unknown_returns result x k0 (jstr "institution") (jstr "name") H)
    as [n1 ->].
  destruct (name_or_unknown_returns result x k0 (jstr "document") (jstr "type") H)
    as [n2 ->].
  destruct (getStatusMessage result) as [msg|e];
    destruct (mapVerificationDetails result) as [details|e']; cbn [obind]; eauto.
  eexists. split; [reflexivity|]. repeat split; reflexivity.
Qed.

(** Served in two environments, the verified path throws the same
    exception or gives two bodies with the same outcome fields. *)
Lemma success_body_stable (w1 w2 : World) (metadata : Metadata)
    (result : JSValue Number) :
  (exists e, success_body w1 metadata result = Thrown e
             /\ success_body w2 metadata result = Thrown e)
  \/ (exists b1 b2, success_body w1 metadata result = Returned b1
                    /\ success_body w2 metadata result = Returned b2
                    /\ outcome_fields b1 = outcome_fields b2).
Proof.
  unfold success_body.
  repeat match goal with
         | |- context [obind ?o _] =>
             destruct o; cbn [obind]; [|left; eexists; split; reflexivity]
         end.
  right. eexists. eexists. split; [reflexivity|]. split; reflexivity.
Qed.

Local Arguments validate : simpl never.
Local Arguments securityScan : simpl never.
Local Arguments success_body : simpl never.
Local Arguments verifyUrl : simpl never.
Local Arguments extractMetadata : simpl never.

(** The reply and the calls of a request that reaches the authority and
    gets an answer with a status in 200-299 and a JSON body. *)
Lemma run_verified_path (w : World) (data : Upload) (buffer : Buffer)
    (url : JSString) (verifyResponse : FetchResponse) (result : JSValue Number) :
  submission w data buffer ->
  valid (validate buffer (upload_filename data)) = true ->
  safe (securityScan buffer) = true ->
  documentId (identifiers buffer) <> JUndefined ->
  verifyUrl (identifiers buffer) = Returned url ->
  fetch w url = Returned verifyResponse ->
  response_ok verifyResponse = true ->
  response_json verifyResponse = Returned result ->
  fst (run w)
  = match success_body w (identifiers buffer) result with
    | Returned payload => Returned {| code := 200; body := payload |}
    | Thrown _ => Returned reply_internal_error
    end.
Proof.
  intros [Hfile Hbuf] Hvalid Hsafe Hdoc Hurl Hfetch Hok Hjson.
  assert (Hpresent : truthy (documentId (identifiers buffer)) = true).
  { destruct (truthy (documentId (identifiers buffer))) eqn:E; [reflexivity|].
    now apply documentId_absent_iff in E. }
  unfold run, verify_handler, try_catch, bind, call, emit, lift, ret.
  rewrite Hfile. cbn. rewrite Hbuf. cbn. rewrite Hvalid. cbn.
  rewrite Hsafe. cbn. rewrite extractMetadata_run, Hpresent. cbn.
  rewrite Hurl. cbn.
  rewrite Hfetch, Hok. cbn. rewrite Hjson. cbn.
  destruct (success_body w (identifiers buffer) result); reflexivity.
Qed.

(** C7, with the tampered case. On the verified path the message is
    synthesized from the answer's [status], [valid] and [errors] by the
    precedence: [ACTIVE] with [valid] true gives the valid-document
    message; [REVOKED] the revoked message; [SUPERSEDED] the superseded
    message; [valid] false with a non-empty [errors] list gives
    "Invalid Document - " followed by the first error converted to a
    string; [valid] false with no error gives the tampered message; any
    other answer gives the undetermined message. The reply has code
    200, that message, and [receipt.result] is [VALID] exactly when
    [valid] is true. No message is produced only when the first error
    has to be printed and cannot be converted to a string; the reply is
    then the 500 one. A first error that is a string is printed as it
    is. *)
Theorem verified_message_precedence (w : World) (data : Upload) (buffer : Buffer)
    (url : JSString) (verifyResponse : FetchResponse)
    (result status v errors : JSValue Number) :
  submission w data buffer ->
  valid (validate buffer (upload_filename data)) = true ->
  safe (securityScan buffer) = true ->
  documentId (identifiers buffer) <> JUndefined ->
  verifyUrl (identifiers buffer) = Returned url ->
  fetch w url = Returned verifyResponse ->
  response_ok verifyResponse = true ->
  response_json verifyResponse = Returned result ->
  get result (jstr "status") = Returned status ->
  get result (jstr "valid") = Returned v ->
  get result (jstr "errors") = Returned errors ->
  list_or_absent errors ->
  getStatusMessage result = message_by_precedence status v errors
  /\ (forall msg,
        message_by_precedence status v errors = Returned msg ->
        exists payload,
          fst (run w) = Returned {| code := 200; body := payload |}
          /\ prop payload (jstr "message") = JStr msg
          /\ prop2 payload (jstr "receipt") (jstr "result")
             = (if truthy v then str "VALID" else str "INVALID")
          /\ (prop2 payload (jstr "receipt") (jstr "result") = str "VALID"
              <-> truthy v = true))
  /\ (forall e,
        message_by_precedence status v errors = Thrown e ->
        (exists first rest,
           errors = JArr (first :: rest) /\ toStringJS first = Thrown e)
        /\ fst (run w) = Returned reply_internal_error)
  /\ (forall s rest,
        errors = JArr (JStr s :: rest) ->
        truthy v = false ->
        is_string status (jstr "REVOKED") = false ->
        is_string status (jstr "SUPERSEDED") = false ->
        message_by_precedence status v errors
        = Returned (jstr "Invalid Document - " ++ s)).
Proof.
  intros Hsub Hvalid Hsafe Hdoc Hurl Hfetch Hok Hjson Hstatus Hv Herrors Hlist.
  pose proof (getStatusMessage_cases result status v errors
                Hstatus Hv Herrors Hlist) as Hmsg.
  pose proof (run_verified_path w data buffer url verifyResponse result
                Hsub Hvalid Hsafe Hdoc Hurl Hfetch Hok Hjson) as Hrun.
  pose proof (success_body_fields w (identifiers buffer) result status
                (jstr "status") Hstatus) as Hbody.
  pose proof (mapVerificationDetails_outcome result status (jstr "status") Hstatus)
    as Hdetails.
  destruct (has_errors_list_or_absent result errors Herrors Hlist) as [b Hb].
  rewrite Hb in Hdetails. destruct Hdetails as [details Hdetails].
  rewrite Hmsg, Hdetails in Hbody.
  assert (Hvprop : prop result (jstr "valid") = v)
    by (unfold prop; now rewrite Hv).
  split; [exact Hmsg|]. split; [|split].
  - intros msg Hreturned. rewrite Hreturned in Hbody.
    destruct Hbody as (payload & Hpayload & _ & _ & Hmessage & Hresult & _).
    rewrite Hvprop in Hresult. rewrite Hpayload in Hrun.
    exists payload. split; [exact Hrun|].
    split; [exact Hmessage|]. split; [exact Hresult|].
    rewrite Hresult. destruct (truthy v); split; intros H;
      try reflexivity; try discriminate H.
  - intros e Hthrown. rewrite Hthrown in Hbody.
    destruct Hbody as [e' Hbody]. rewrite Hbody in Hrun.
    split; [|exact Hrun].
    unfold message_by_precedence in Hthrown.
    destruct (is_string status (jstr "ACTIVE") && truthy v); [discriminate Hthrown|].
    destruct (is_string status (jstr "REVOKED")); [discriminate Hthrown|].
    destruct (is_string status (jstr "SUPERSEDED")); [discriminate Hthrown|].
    destruct (truthy v); [discriminate Hthrown|].
    destruct errors as [| | | | |[|first rest]|]; try discriminate Hthrown.
    exists first, rest. split; [reflexivity|].
    destruct (toStringJS first) as [s|e0]; cbn [obind] in Hthrown;
      [discriminate Hthrown | congruence].
  - intros s rest -> Hfalse Hrevoked Hsuperseded. unfold message_by_precedence.
    rewrite Hfalse, andb_false_r, Hrevoked, Hsuperseded. reflexivity.
Qed.

(** C8. Two requests with the same file part, met by an authority that
    answers both alike, get replies with the same code and the same
    outcome fields, after the same calls: the bodies agree on every
    property but [verifiedAt], [receipt.verifiedAt] and [receipt.id].
    On the verified path, when the message and the details of the
    answer are produced, the reply is the success response and these
    three are the two clock readings and the random bytes of the
    request. *)
Theorem same_document_same_outcome (w1 w2 : World) :
  request_file w1 = request_file w2 ->
  (forall url, fetch w1 url = fetch w2 url) ->
  (exists r1 r2,
     fst (run w1) = Returned r1
     /\ fst (run w2) = Returned r2
     /\ code r1 = code r2
     /\ outcome_fields (body r1) = outcome_fields (body r2))
  /\ calls w1 = calls w2
  /\ (forall data buffer url verifyResponse result msg details,
        submission w1 data buffer ->
        valid (validate buffer (upload_filename data)) = true ->
        safe (securityScan buffer) = true ->
        documentId (identifiers buffer) <> JUndefined ->
        verifyUrl (identifiers buffer) = Returned url ->
        fetch w1 url = Returned verifyResponse ->
        response_ok verifyResponse = true ->
        response_json verifyResponse = Returned result ->
        getStatusMessage result = Returned msg ->
        mapVerificationDetails result = Returned details ->
        exists payload,
          fst (run w1) = Returned {| code := 200; body := payload |}
          /\ prop payload (jstr "verifiedAt") = JStr (Date_now_iso w1 0)
          /\ prop2 payload (jstr "receipt") (jstr "verifiedAt")
             = JStr (Date_now_iso w1 1)
          /\ prop2 payload (jstr "receipt") (jstr "id")
             = JStr (jstr "rcpt_" ++ toString_hex (randomBytes w1 12))).
Proof.
  intros Hfile Hfetch.
  split; [|split].
  - unfold run, verify_handler, try_catch, bind, call, emit, lift, ret.
    rewrite <- Hfile.
    destruct (request_file w1) as [[data|]|e]; cbn;
      [|eexists; eexists; repeat split; reflexivity ..].
    destruct (upload_toBuffer data) as [buffer|e]; cbn;
      [|eexists; eexists; repeat split; reflexivity].
    destruct (valid (validate buffer (upload_filename data))); cbn;
      [|eexists; eexists; repeat split; reflexivity].
    destruct (safe (securityScan buffer)); cbn;
      [|eexists; eexists; repeat split; reflexivity].
    rewrite !extractMetadata_run.
    destruct (truthy (documentId (identifiers buffer))); cbn;
      [|eexists; eexists; repeat split; reflexivity].
    destruct (verifyUrl (identifiers buffer)) as [url|e]; cbn;
      [|eexists; eexists; repeat split; reflexivity].
    rewrite <- Hfetch.
    destruct (fetch w1 url) as [resp|e]; cbn;
      [|eexists; eexists; repeat split; reflexivity].
    destruct (response_ok resp); cbn;
      [|destruct (response_status resp =? 404);
        eexists; eexists; repeat split; reflexivity].
    destruct (response_json resp) as [result|e]; cbn;
      [|eexists; eexists; repeat split; reflexivity].
    destruct (success_body_stable w1 w2 (identifiers buffer) result)
      as [(e & -> & ->) | (b1 & b2 & -> & -> & Hsame)]; cbn.
    + eexists; eexists; repeat split; reflexivity.
    + exists {| code := 200; body := b1 |}, {| code := 200; body := b2 |}.
      split; [reflexivity|]. split; [reflexivity|].
      split; [reflexivity | exact Hsame].
  - unfold calls, run, verify_handler, try_catch, bind, call, emit, lift, ret.
    rewrite <- Hfile.
    destruct (request_file w1) as [[data|]|e]; cbn; [|reflexivity ..].
    destruct (upload_toBuffer data) as [buffer|e]; cbn; [|reflexivity].
    destruct (valid (validate buffer (upload_filename data))); cbn;
      [|reflexivity].
    destruct (safe (securityScan buffer)); cbn; [|reflexivity].
    rewrite !extractMetadata_run.
    destruct (truthy (documentId (identifiers buffer))); cbn; [|reflexivity].
    destruct (verifyUrl (identifiers buffer)) as [url|e]; cbn; [|reflexivity].
    rewrite <- Hfetch.
    destruct (fetch w1 url) as [resp|e]; cbn;
      [|reflexivity].
    destruct (response_ok resp); cbn;
      [|destruct (response_status resp =? 404); reflexivity].
    destruct (response_json resp) as [result|e]; cbn; [|reflexivity].
    destruct (success_body_stable w1 w2 (identifiers buffer) result)
      as [(e & -> & ->) | (b1 & b2 & -> & -> & _)]; reflexivity.
  - intros data buffer url verifyResponse result msg details
      Hsub Hvalid Hsafe Hdoc Hurl Hresp Hok Hjson Hmsg Hdetails.
    assert (Hget : exists x, get result (jstr "status") = Returned x).
    { unfold getStatusMessage in Hmsg.
      destruct (get result (jstr "status")) as [x|e];
        [eauto | discriminate Hmsg]. }
    destruct Hget as [x Hget].
    pose proof (success_body_fields w1 (identifiers buffer) result x
                  (jstr "status") Hget) as Hbody.
    rewrite Hmsg, Hdetails in Hbody.
    destruct Hbody as (payload & Hbody & _ & _ & _ & _ & Hat & Hat' & Hid).
    exists payload. split; [|auto].
    rewrite (run_verified_path w1 data buffer url verifyResponse result)
      by assumption.
    now rewrite Hbody.
Qed.

End MessageProperties.

(** The authority reports the sample credential active and valid,
    another time rejects it with two errors, and a third time with an
    error that has no string form. *)
Lemma verified_message_precedence_witness :
  (getStatusMessage (RT := rt_credential) answer_active = Returned msg_valid
   /\ exists payload,
        fst (run world_active) = Returned {| code := 200; body := payload |}
        /\ prop payload (jstr "message") = JStr msg_valid
        /\ prop2 payload (jstr "receipt") (jstr "result") = str "VALID")
  /\ (getStatusMessage (RT := rt_credential) answer_rejected
      = Returned (jstr "Invalid Document - Signature mismatch")
      /\ exists payload,
           fst (run world_rejected) = Returned {| code := 200; body := payload |}
           /\ prop payload (jstr "message")
              = JStr (jstr "Invalid Document - Signature mismatch")
           /\ prop2 payload (jstr "receipt") (jstr "result") = str "INVALID")
  /\ (getStatusMessage (RT := rt_credential) answer_unprintable
      = Thrown TypeError_primitive
      /\ fst (run world_unprintable) = Returned reply_internal_error).
Proof.
  split; [|split].
  - destruct (verified_message_precedence world_active
                (upload_of (jstr "diploma.pdf") sample_pdf) sample_pdf
                (jstr "http://localhost:3000/api/documents/doc_7f3a/verify-public")
                (Build_FetchResponse (RT := rt_credential) 200 (Returned answer_active))
                answer_active (str "ACTIVE") (JBool true) JUndefined
                (conj eq_refl eq_refl) eq_refl eq_refl
                ltac:(vm_compute; discriminate)
                eq_refl eq_refl eq_refl eq_refl eq_refl eq_refl eq_refl
                (or_introl eq_refl))
      as (Hmsg & Hreturned & _).
    destruct (Hreturned msg_valid eq_refl)
      as (payload & Hrun & Hmessage & Hresult & _).
    split; [exact Hmsg|]. exists payload.
    split; [exact Hrun|]. split; [exact Hmessage | exact Hresult].
  - destruct (verified_message_precedence world_rejected
                (upload_of (jstr "diploma.pdf") sample_pdf) sample_pdf
                (jstr "http://localhost:3000/api/documents/doc_7f3a/verify-public")
                (Build_FetchResponse (RT := rt_credential) 200 (Returned answer_rejected))
                answer_rejected (str "ACTIVE") (JBool false)
                (JArr [JStr (jstr "Signature mismatch"); JStr (jstr "Hash mismatch")])
                (conj eq_refl eq_refl) eq_refl eq_refl
                ltac:(vm_compute; discriminate)
                eq_refl eq_refl eq_refl eq_refl eq_refl eq_refl eq_refl
                (or_intror (or_intror (ex_intro _ _ eq_refl))))
      as (Hmsg & Hreturned & _).
    destruct (Hreturned (jstr "Invalid Document - Signature mismatch") eq_refl)
      as (payload & Hrun & Hmessage & Hresult & _).
    split; [exact Hmsg|]. exists payload.
    split; [exact Hrun|]. split; [exact Hmessage | exact Hresult].
  - destruct (verified_message_precedence world_unprintable
                (upload_of (jstr "diploma.pdf") sample_pdf) sample_pdf
                (jstr "http://localhost:3000/api/documents/doc_7f3a/verify-public")
                (Build_FetchResponse (RT := rt_credential) 200
                   (Returned answer_unprintable))
                answer_unprintable JUndefined (JBool false)
                (JArr [JObj [(jstr "toString", JNull)]])
                (conj eq_refl eq_refl) eq_refl eq_refl
                ltac:(vm_compute; discriminate)
                eq_refl eq_refl eq_refl eq_refl eq_refl eq_refl eq_refl
                (or_intror (or_intror (ex_intro _ _ eq_refl))))
      as (Hmsg & _ & Hthrown & _).
    split; [exact Hmsg|].
    exact (proj2 (Hthrown TypeError_primitive eq_refl)).
Defined.

(** For an active document whose signature does not verify and that
    comes without a list of errors, the code gives the tampered
    message, where the stated precedence gives the undetermined one. *)
Lemma stated_precedence_misses_tampered :
  getStatusMessage (RT := rt_credential) answer_bad_signature = Returned msg_tampered
  /\ message_as_stated (RT := rt_credential)
       (prop (RT := rt_credential) answer_bad_signature (jstr "status"))
       (prop (RT := rt_credential) answer_bad_signature (jstr "valid"))
       (prop (RT := rt_credential) answer_bad_signature (jstr "errors"))
     = Returned msg_undetermined
  /\ getStatusMessage (RT := rt_credential) answer_bad_signature
     <> message_as_stated (RT := rt_credential)
          (prop (RT := rt_credential) answer_bad_signature (jstr "status"))
          (prop (RT := rt_credential) answer_bad_signature (jstr "valid"))
          (prop (RT := rt_credential) answer_bad_signature (jstr "errors")).
Proof.
  split; [vm_compute; reflexivity|].
  split; [vm_compute; reflexivity|].
  intros H. vm_compute in H. discriminate H.
Qed.

(** Conversions to a string: a list prints its elements between commas,
    [null] as nothing and a nested list flattened; an object prints as
    [[object Object]] unless it has a property named [toString], which
    makes the conversion throw, also from inside a list. *)
Example toStringJS_examples :
  toStringJS (RT := rt_credential)
    (JArr [JNum 1; JNull; JStr (jstr "a"); JArr [JNum 2; JNum 3]; JBool true])
  = Returned (jstr "1,,a,2,3,true")
  /\ toStringJS (RT := rt_credential) (JObj [(jstr "code", JNum 7)])
     = Returned (jstr "[object Object]")
  /\ toStringJS (RT := rt_credential) (JObj [(jstr "toString", JNull)])
     = Thrown TypeError_primitive
  /\ toStringJS (RT := rt_credential)
       (JArr [JStr (jstr "a"); JObj [(jstr "toString", JStr (jstr "x"))]])
     = Thrown TypeError_primitive
  /\ gt0 (RT := rt_credential) (JArr [JNum 3]) = Returned true
  /\ gt0 (RT := rt_credential) (JObj [(jstr "toString", JNull)])
     = Thrown TypeError_primitive.
Proof. repeat split; vm_compute; reflexivity. Qed.

(** The sample credential verified in the morning and again in the
    evening, with other random bytes: the same outcome fields, under
    two receipt ids and two times. *)
Lemma same_document_same_outcome_witness :
  (exists r1 r2,
     fst (run world_active) = Returned r1
     /\ fst (run world_active_again) = Returned r2
     /\ code r1 = code r2
     /\ outcome_fields (body r1) = outcome_fields (body r2))
  /\ (exists payload,
        fst (run world_active) = Returned {| code := 200; body := payload |}
        /\ prop payload (jstr "verifiedAt") = JStr morning
        /\ prop2 payload (jstr "receipt") (jstr "verifiedAt") = JStr morning'
        /\ prop2 payload (jstr "receipt") (jstr "id")
           = str "rcpt_000102030405060708090aff")
  /\ (exists payload,
        fst (run world_active_again) = Returned {| code := 200; body := payload |}
        /\ prop payload (jstr "verifiedAt") = JStr evening
        /\ prop2 payload (jstr "receipt") (jstr "verifiedAt") = JStr evening
        /\ prop2 payload (jstr "receipt") (jstr "id")
           = str "rcpt_101112131415161718191a1b").
Proof.
  split; [|split].
  - exact (proj1 (same_document_same_outcome world_active world_active_again
                    eq_refl (fun url => eq_refl))).
  - exact (proj2 (proj2 (same_document_same_outcome world_active world_active_again
                           eq_refl (fun url => eq_refl)))
             (upload_of (jstr "diploma.pdf") sample_pdf) sample_pdf
             (jstr "http://localhost:3000/api/documents/doc_7f3a/verify-public")
             (Build_FetchResponse (RT := rt_credential) 200 (Returned answer_active))
             answer_active msg_valid
             (JObj [(jstr "isValid", JBool true);
                    (jstr "checks",
                     JObj [(jstr "signatureValid", JBool true);
                           (jstr "authorityValid", JBool true);
                           (jstr "notRevoked", JBool true)])])
             (conj eq_refl eq_refl) eq_refl eq_refl
             ltac:(vm_compute; discriminate) eq_refl eq_refl eq_refl eq_refl
             eq_refl eq_refl).
  - exact (proj2 (proj2 (same_document_same_outcome world_active_again world_active
                           eq_refl (fun url => eq_refl)))
             (upload_of (jstr "diploma.pdf") sample_pdf) sample_pdf
             (jstr "http://localhost:3000/api/documents/doc_7f3a/verify-public")
             (Build_FetchResponse (RT := rt_credential) 200 (Returned answer_active))
             answer_active msg_valid
             (JObj [(jstr "isValid", JBool true);
                    (jstr "checks",
                     JObj [(jstr "signatureValid", JBool true);
                           (jstr "authorityValid", JBool true);
                           (jstr "notRevoked", JBool true)])])
             (conj eq_refl eq_refl) eq_refl eq_refl
             ltac:(vm_compute; discriminate) eq_refl eq_refl eq_refl eq_refl
             eq_refl eq_refl).
Defined.

(* ================================================================== *)
(** * The handler follows one of its paths *)
(* ================================================================== *)

Section PathProperties.
Context {RT : Runtime}.

Local Arguments validate : simpl never.
Local Arguments securityScan : simpl never.
Local Arguments success_body : simpl never.
Local Arguments verifyUrl : simpl never.
Local Arguments extractMetadata : simpl never.

(** Every request is served along one of the thirteen paths: the handler
    returns a reply, whatever is thrown on the way. *)
Lemma run_served (w : World) :
  exists r log, run w = (Returned r, log) /\ Served w r log.
Proof.
  unfold run, verify_handler, try_catch, bind, call, emit, lift, ret.
  destruct (request_file w) as [[data|]|e] eqn:Hfile; cbn;
    [|eexists; eexists; split; [reflexivity | econstructor; eassumption]
     |eexists; eexists; split; [reflexivity | econstructor; eassumption]].
  destruct (upload_toBuffer data) as [buffer|e] eqn:Hbuf; cbn;
    [|eexists; eexists; split; [reflexivity | econstructor; eassumption]].
  assert (Hsub : submission w data buffer) by (split; assumption).
  destruct (valid (validate buffer (upload_filename data))) eqn:Hvalid; cbn;
    [|eexists; eexists; split; [reflexivity | econstructor; eassumption]].
  destruct (safe (securityScan buffer)) eqn:Hsafe; cbn;
    [|eexists; eexists; split; [reflexivity | econstructor; eassumption]].
  rewrite extractMetadata_run.
  change (EvRequestFile :: EvToBuffer :: EvValidate :: EvSecurityScan
          :: EvExtractMetadata :: extract_events buffer)
    with (calls_to_extractor buffer).
  destruct (truthy (documentId (identifiers buffer))) eqn:Hdoc; cbn;
    [|eexists; eexists; split; [reflexivity | econstructor; eassumption]].
  destruct (verifyUrl (identifiers buffer)) as [url|e] eqn:Hurl; cbn;
    [|eexists; eexists; split; [reflexivity | econstructor; eassumption]].
  destruct (fetch w url) as [resp|e] eqn:Hfetch; cbn;
    [|eexists; eexists; split;
      [rewrite <- !app_assoc; reflexivity | econstructor; eassumption]].
  destruct (response_ok resp) eqn:Hok; cbn.
  - destruct (response_json resp) as [result|e] eqn:Hjson; cbn;
      [|eexists; eexists; split;
        [rewrite <- !app_assoc; reflexivity | econstructor; eassumption]].
    destruct (success_body w (identifiers buffer) result) as [payload|e] eqn:Hbody;
      cbn; eexists; eexists;
      (split; [rewrite <- !app_assoc; reflexivity | econstructor; eassumption]).
  - destruct (response_status resp =? 404) eqn:Hstatus;
      eexists; eexists;
      (split; [rewrite <- !app_assoc; reflexivity|]).
    + apply Z.eqb_eq in Hstatus. econstructor; eassumption.
    + apply Z.eqb_neq in Hstatus. econstructor; eassumption.
Qed.

Lemma run_served_reply (w : World) :
  exists r, fst (run w) = Returned r /\ Served w r (calls w).
Proof.
  destruct (run_served w) as (r & log & Hrun & Hserved).
  exists r. unfold calls. rewrite Hrun. split; [reflexivity | exact Hserved].
Qed.

(** The calls up to the extractor are one of two lists. *)
Lemma calls_to_extractor_cases (buffer : Buffer) :
  calls_to_extractor buffer
  = [EvRequestFile; EvToBuffer; EvValidate; EvSecurityScan; EvExtractMetadata;
     EvPdfjs]
  \/ calls_to_extractor buffer
     = [EvRequestFile; EvToBuffer; EvValidate; EvSecurityScan; EvExtractMetadata;
        EvPdfjs; EvConsoleError].
Proof.
  unfold calls_to_extractor.
  destruct (extract_events_cases buffer) as [-> | ->]; auto.
Qed.

(** The body of the verified path is an object with exactly the
    properties the handler writes, in their order; the flags of
    [receipt.checks] are those of [verification]. *)
Lemma success_body_shape (w : World) (metadata : Metadata)
    (result payload : JSValue Number) :
  success_body w metadata result = Returned payload ->
  exists status v msg institution document f1 f2 f3 details name type,
    getStatusMessage result = Returned msg
    /\ check_flag result (jstr "signatureValid") = Returned f1
    /\ check_flag result (jstr "authorityValid") = Returned f2
    /\ check_flag result (jstr "notRevoked") = Returned f3
    /\ mapVerificationDetails result = Returned details
    /\ name_or_unknown result (jstr "institution") (jstr "name") = Returned name
    /\ name_or_unknown result (jstr "document") (jstr "type") = Returned type
    /\ get result (jstr "valid") = Returned v
    /\ payload
       = JObj [(jstr "status", status);
               (jstr "valid", v);
               (jstr "message", JStr msg);
               (jstr "documentId", documentId metadata);
               (jstr "institutionId", institutionId metadata);
               (jstr "institution", js_or institution (JObj []));
               (jstr "document", js_or document (JObj []));
               (jstr "verification",
                JObj [(jstr "cryptographicIntegrity", f1);
                      (jstr "issuingAuthority", f2);
                      (jstr "revocationStatus", f3)]);
               (jstr "details", details);
               (jstr "verifiedAt", JStr (Date_now_iso w 0));
               (jstr "receipt",
                JObj [(jstr "id",
                       JStr (jstr "rcpt_" ++ toString_hex (randomBytes w 12)));
                      (jstr "documentId", documentId metadata);
                      (jstr "verifiedAt", JStr (Date_now_iso w 1));
                      (jstr "result",
                       if truthy v then str "VALID" else str "INVALID");
                      (jstr "checks",
                       JObj [(jstr "signature", f1);
                             (jstr "authority", f2);
                             (jstr "revocation", f3)]);
                      (jstr "institution", name);
                      (jstr "documentType", type)])].
Proof.
  unfold success_body.
  repeat match goal with
         | |- context [obind ?o _] =>
             destruct o; cbn [obind]; [|intros H; discriminate H]
         end.
  intros H. injection H as <-.
  do 11 eexists. repeat split; reflexivity.
Qed.

(** A reply that is not the verified one has no [receipt]. *)
Lemma Served_receipt (w : World) (r : Reply) (log : list Event) :
  Served w r log ->
  prop (body r) (jstr "receipt") <> JUndefined ->
  exists data buffer url verifyResponse result,
    submission w data buffer
    /\ valid (validate buffer (upload_filename data)) = true
    /\ safe (securityScan buffer) = true
    /\ truthy (documentId (identifiers buffer)) = true
    /\ verifyUrl (identifiers buffer) = Returned url
    /\ fetch w url = Returned verifyResponse
    /\ response_ok verifyResponse = true
    /\ response_json verifyResponse = Returned result
    /\ success_body w (identifiers buffer) result = Returned (body r)
    /\ code r = 200.
Proof.
  intros Hserved Hreceipt.
  destruct Hserved; try (exfalso; apply Hreceipt; reflexivity).
  exists data, buffer, url, verifyResponse, result. cbn [body code]. auto 12.
Qed.

(** X3. The handler answers every request: it returns a reply whatever
    is thrown on the way, with code 200, 400 or 500. The code is 500
    exactly when the logger was called, and the 500 reply is one fixed
    body that carries nothing of the exception. *)
Theorem handler_always_replies (w : World) :
  exists r,
    fst (run w) = Returned r
    /\ (code r = 200 \/ code r = 400 \/ code r = 500)
    /\ (code r = 500 <-> ran EvLogError w)
    /\ (code r = 500 ->
        r = {| code := 500;
               body := JObj [(jstr "status", str "ERROR");
                             (jstr "valid", JBool false);
                             (jstr "message",
                              str "An error occurred during verification. Please try again.");
                             (jstr "reason", str "Internal processing error")] |}).
Proof.
  destruct (run_served_reply w) as (r & Hrun & Hserved).
  exists r. split; [exact Hrun|]. unfold ran.
  destruct Hserved;
    try destruct (calls_to_extractor_cases buffer) as [-> | ->];
    cbn [code reply_internal_error reply_no_file reply_validation_failed
         reply_security_failed reply_not_a_credential reply_not_found
         reply_unavailable app In];
    (split; [auto|]); (split; [|intros Hc; try discriminate Hc; reflexivity]);
    split; intros Hc; try discriminate Hc; try tauto;
    exfalso; repeat (destruct Hc as [Hc|Hc]; [discriminate Hc|]); exact Hc.
Qed.

(** X4. Apart from console and logger calls, the calls of a request are
    an initial segment of the pipeline: file part, buffer, validator,
    scanner, extractor, parser, one fetch, JSON body. Each is made at
    most once and in this order; in particular the authority is asked
    at most once (no retry). *)
Theorem calls_follow_pipeline (w : World) :
  (exists n url,
     filter (fun ev => negb (is_console ev)) (calls w) = firstn n (pipeline url))
  /\ (length (filter is_fetch (calls w)) <= 1)%nat.
Proof.
  destruct (run_served_reply w) as (r & _ & Hserved).
  destruct Hserved;
    try destruct (calls_to_extractor_cases buffer) as [-> | ->];
    (split; [|cbn; lia]);
    cbn [app filter is_console negb];
    first [ exists 1%nat, (@nil N); reflexivity
          | exists 2%nat, (@nil N); reflexivity
          | exists 3%nat, (@nil N); reflexivity
          | exists 4%nat, (@nil N); reflexivity
          | exists 6%nat, (@nil N); reflexivity
          | exists 7%nat; eexists; reflexivity
          | exists 8%nat; eexists; reflexivity ].
Qed.

(** X5. A reply carries a [receipt] only on the verified path: the
    submission passed the validator and the scanner, had a document id
    from which the URL was built, and the authority answered there with
    a status in 200-299 and a JSON body;
    the reply then has code 200. The body of an answer outside 200-299
    is never read. *)
Theorem receipt_only_when_verified (w : World) :
  (forall r,
     fst (run w) = Returned r ->
     prop (body r) (jstr "receipt") <> JUndefined ->
     code r = 200
     /\ exists data buffer url verifyResponse result,
          submission w data buffer
          /\ valid (validate buffer (upload_filename data)) = true
          /\ safe (securityScan buffer) = true
          /\ verifyUrl (identifiers buffer) = Returned url
          /\ fetch w url = Returned verifyResponse
          /\ response_ok verifyResponse = true
          /\ response_json verifyResponse = Returned result)
  /\ (ran EvResponseJson w ->
      exists data buffer url verifyResponse,
        submission w data buffer
        /\ verifyUrl (identifiers buffer) = Returned url
        /\ fetch w url = Returned verifyResponse
        /\ response_ok verifyResponse = true).
Proof.
  destruct (run_served_reply w) as (r0 & Hrun & Hserved).
  split.
  - intros r Hr Hreceipt. rewrite Hrun in Hr. injection Hr as <-.
    destruct (Served_receipt w r0 (calls w) Hserved Hreceipt)
      as (data & buffer & url & resp & result
          & H1 & H2 & H3 & _ & H4 & H5 & H6 & H7 & _ & H9).
    split; [exact H9|]. exists data, buffer, url, resp, result. auto 10.
  - unfold ran.
    destruct Hserved;
      try destruct (calls_to_extractor_cases buffer) as [-> | ->];
      cbn [app In]; intros Hin;
      try (exfalso; repeat (destruct Hin as [Hin|Hin]; [discriminate Hin|]);
           exact Hin);
      exists data, buffer, url, verifyResponse; auto.
Qed.

(** A 400 reply of the scanner lists what it found. *)
Lemma unsafe_scan_lists_threats (buffer : Buffer) :
  safe (securityScan buffer) = false ->
  exists l,
    threats (securityScan buffer) = Some l
    /\ l <> []
    /\ forall k, In (threat_label k) l
                 <-> marker_matches (toLowerCase (toString_utf8 buffer)) k = true.
Proof.
  rewrite securityScan_reading. intros Hsafe.
  pose proof (scan_reading_listed buffer) as Hlisted.
  unfold scan_reading, listed in *. cbv zeta in *.
  set (found := map threat_label
                  (filter (marker_matches (toLowerCase (toString_utf8 buffer)))
                     threat_order)) in *.
  destruct found as [|t ts] eqn:Hfound; [discriminate Hsafe|].
  exists (t :: ts). split; [reflexivity|]. split; [discriminate|].
  intros k. rewrite <- Hfound. unfold found. split.
  - intros Hin. apply in_map_iff in Hin as (k' & Hlabel & Hk').
    apply threat_label_injective in Hlabel. subst k'.
    now apply filter_In in Hk'.
  - intros Hk. apply in_map. apply filter_In.
    split; [apply threat_order_complete | exact Hk].
Qed.

(** An invalid result carries the error of a check. *)
Lemma invalid_has_check_error (buffer : Buffer) (filename : JSString) :
  valid (validate buffer filename) = false ->
  exists c, error (validate buffer filename) = Some (check_error c).
Proof.
  rewrite validate_first_failure. unfold check_order, first_failure.
  destruct (check_fails CheckSize buffer filename); [now exists CheckSize|].
  destruct (check_fails CheckEmptiness buffer filename); [now exists CheckEmptiness|].
  destruct (check_fails CheckMagicNumber buffer filename);
    [now exists CheckMagicNumber|].
  destruct (check_fails CheckExtension buffer filename);
    [now exists CheckExtension | discriminate].
Qed.

(** X6. A reply whose reason is "Security check failed" has code 400
    and status [INVALID], comes from an upload that passed the
    validator, and its [threats] is a non-empty list that holds the
    label of a kind exactly when a marker of that kind occurs in the
    decoded, lower-cased upload. *)
Theorem security_reply_lists_threats (w : World) (r : Reply) :
  fst (run w) = Returned r ->
  prop (body r) (jstr "reason") = str "Security check failed" ->
  code r = 400
  /\ prop (body r) (jstr "status") = str "INVALID"
  /\ exists data buffer l,
       submission w data buffer
       /\ valid (validate buffer (upload_filename data)) = true
       /\ prop (body r) (jstr "threats") = JArr (map JStr l)
       /\ l <> []
       /\ forall k, In (threat_label k) l
                    <-> marker_matches (toLowerCase (toString_utf8 buffer)) k = true.
Proof.
  intros Hr Hreason.
  destruct (run_served_reply w) as (r0 & Hrun & Hserved).
  rewrite Hrun in Hr. injection Hr as <-.
  destruct Hserved;
    try (lazy in Hreason; discriminate Hreason).
  - split; [reflexivity|]. split; [reflexivity|].
    destruct (unsafe_scan_lists_threats buffer) as (l & Hl & Hne & Hk);
      [assumption|].
    exists data, buffer, l.
    split; [assumption|]. split; [assumption|].
    split; [|split; [exact Hne | exact Hk]].
    change (optional_strings (threats (securityScan buffer)) = JArr (map JStr l)).
    rewrite Hl. reflexivity.
  - exfalso.
    match goal with
    | Hbody : success_body _ _ _ = Returned _ |- _ =>
        apply success_body_shape in Hbody;
        destruct Hbody as (? & ? & ? & ? & ? & ? & ? & ? & ? & ? & ? & Hshape);
        destruct Hshape as (_ & _ & _ & _ & _ & _ & _ & _ & ->)
    end.
    lazy in Hreason. discriminate Hreason.
Qed.

(** X7. A reply whose reason is "File validation failed" has code 400
    and status [INVALID], and its message is the error of the first
    check, in the order size, emptiness, magic number, extension, that
    rejects the upload: that check rejects and every earlier one
    passes. *)
Theorem validation_reply_names_first_failure (w : World) (r : Reply) :
  fst (run w) = Returned r ->
  prop (body r) (jstr "reason") = str "File validation failed" ->
  code r = 400
  /\ prop (body r) (jstr "status") = str "INVALID"
  /\ exists data buffer c,
       submission w data buffer
       /\ check_fails c buffer (upload_filename data) = true
       /\ (forall c', (check_rank c' < check_rank c)%nat ->
                      check_fails c' buffer (upload_filename data) = false)
       /\ prop (body r) (jstr "message") = JStr (check_error c).
Proof.
  intros Hr Hreason.
  destruct (run_served_reply w) as (r0 & Hrun & Hserved).
  rewrite Hrun in Hr. injection Hr as <-.
  destruct Hserved;
    try (lazy in Hreason; discriminate Hreason).
  - split; [reflexivity|]. split; [reflexivity|].
    destruct (invalid_has_check_error buffer (upload_filename data))
      as [c Hc]; [assumption|].
    exists data, buffer, c. split; [assumption|].
    pose proof Hc as Hfirst. rewrite validate_first_failure in Hfirst.
    apply first_failure_reports_first in Hfirst as [Hfails Hearlier].
    split; [exact Hfails|]. split; [exact Hearlier|].
    change (optional_string (error (validate buffer (upload_filename data)))
            = JStr (check_error c)).
    rewrite Hc. reflexivity.
  - exfalso.
    match goal with
    | Hbody : success_body _ _ _ = Returned _ |- _ =>
        apply success_body_shape in Hbody;
        destruct Hbody as (? & ? & ? & ? & ? & ? & ? & ? & ? & ? & ? & Hshape);
        destruct Hshape as (_ & _ & _ & _ & _ & _ & _ & _ & ->)
    end.
    lazy in Hreason. discriminate Hreason.
Qed.

(** [a || false] is a truthy value or [false]; [a || b] is truthy when
    [b] is. *)
Lemma js_or_false_cases (a : JSValue Number) :
  js_or a (JBool false) = JBool false \/ truthy (js_or a (JBool false)) = true.
Proof. unfold js_or. destruct (truthy a) eqn:E; auto. Qed.

Lemma js_or_truthy (a b : JSValue Number) :
  truthy b = true -> truthy (js_or a b) = true.
Proof. unfold js_or. destruct (truthy a) eqn:E; auto. Qed.

Lemma check_flag_cases (result flag : JSValue Number) (k : JSString) :
  check_flag result k = Returned flag ->
  flag = JBool false \/ truthy flag = true.
Proof.
  unfold check_flag.
  destruct (get result (jstr "checks")) as [checks|e]; cbn [obind];
    [|discriminate].
  destruct (get_opt checks k) as [x|e]; cbn [obind]; [|discriminate].
  intros H. injection H as <-. apply js_or_false_cases.
Qed.

(** Without a [checks] object every flag is [false]. *)
Lemma check_flag_without_checks (result checks : JSValue Number) (k : JSString) :
  get result (jstr "checks") = Returned checks ->
  checks = JUndefined \/ checks = JNull ->
  check_flag result k = Returned (JBool false).
Proof.
  intros Hget Habsent. unfold check_flag. rewrite Hget.
  destruct Habsent as [-> | ->]; reflexivity.
Qed.

Lemma name_or_unknown_truthy (result name : JSValue Number) (field k : JSString) :
  name_or_unknown result field k = Returned name -> truthy name = true.
Proof.
  unfold name_or_unknown.
  destruct (get result field) as [part|e]; cbn [obind]; [|discriminate].
  destruct (get_opt part k) as [x|e]; cbn [obind]; [|discriminate].
  intros H. injection H as <-. now apply js_or_truthy.
Qed.

(** X8. In a reply that has a receipt, the receipt agrees with the rest
    of the body: the same document id, the same three check flags as
    [verification], and [result] is [VALID] exactly when [valid] is
    truthy. Each flag is a truthy value or [false]; [institution],
    [document] and the receipt's institution name and document type are
    truthy values, what [||] leaves: none is [undefined], [null],
    [false] or the empty string, while an empty object or list, being
    truthy, can stand there. *)
Theorem receipt_agrees_with_reply (w : World) (r : Reply) :
  fst (run w) = Returned r ->
  prop (body r) (jstr "receipt") <> JUndefined ->
  prop2 (body r) (jstr "receipt") (jstr "documentId")
  = prop (body r) (jstr "documentId")
  /\ prop (prop2 (body r) (jstr "receipt") (jstr "checks")) (jstr "signature")
     = prop2 (body r) (jstr "verification") (jstr "cryptographicIntegrity")
  /\ prop (prop2 (body r) (jstr "receipt") (jstr "checks")) (jstr "authority")
     = prop2 (body r) (jstr "verification") (jstr "issuingAuthority")
  /\ prop (prop2 (body r) (jstr "receipt") (jstr "checks")) (jstr "revocation")
     = prop2 (body r) (jstr "verification") (jstr "revocationStatus")
  /\ (prop2 (body r) (jstr "receipt") (jstr "result") = str "VALID"
      <-> truthy (prop (body r) (jstr "valid")) = true)
  /\ (prop2 (body r) (jstr "receipt") (jstr "result") = str "INVALID"
      <-> truthy (prop (body r) (jstr "valid")) = false)
  /\ Forall (fun flag => flag = JBool false \/ truthy flag = true)
       [prop2 (body r) (jstr "verification") (jstr "cryptographicIntegrity");
        prop2 (body r) (jstr "verification") (jstr "issuingAuthority");
        prop2 (body r) (jstr "verification") (jstr "revocationStatus")]
  /\ Forall (fun v => truthy v = true)
       [prop (body r) (jstr "institution");
        prop (body r) (jstr "document");
        prop2 (body r) (jstr "receipt") (jstr "institution");
        prop2 (body r) (jstr "receipt") (jstr "documentType")].
Proof.
  intros Hr Hreceipt.
  destruct (run_served_reply w) as (r0 & Hrun & Hserved).
  rewrite Hrun in Hr. injection Hr as <-.
  destruct (Served_receipt w r0 (calls w) Hserved Hreceipt)
    as (data & buffer & url & resp & result
        & _ & _ & _ & _ & _ & _ & _ & _ & Hbody & _).
  apply success_body_shape in Hbody
    as (status & v & msg & institution & document & f1 & f2 & f3 & details
        & name & type & _ & Hf1 & Hf2 & Hf3 & _ & Hname & Htype & _ & ->).
  split; [reflexivity|]. split; [reflexivity|]. split; [reflexivity|].
  split; [reflexivity|].
  split; [|split; [|split]].
  - change (prop2 _ (jstr "receipt") (jstr "result"))
      with (if truthy v then str "VALID" else str "INVALID").
    change (prop _ (jstr "valid")) with v.
    destruct (truthy v); split; intros H; try reflexivity; discriminate H.
  - change (prop2 _ (jstr "receipt") (jstr "result"))
      with (if truthy v then str "VALID" else str "INVALID").
    change (prop _ (jstr "valid")) with v.
    destruct (truthy v); split; intros H; try reflexivity; discriminate H.
  - apply Forall_cons; [exact (check_flag_cases _ _ _ Hf1)|].
    apply Forall_cons; [exact (check_flag_cases _ _ _ Hf2)|].
    apply Forall_cons; [exact (check_flag_cases _ _ _ Hf3)|].
    apply Forall_nil.
  - apply Forall_cons;
      [change (truthy (js_or institution (JObj [])) = true);
       now apply js_or_truthy|].
    apply Forall_cons;
      [change (truthy (js_or document (JObj [])) = true);
       now apply js_or_truthy|].
    apply Forall_cons; [exact (name_or_unknown_truthy _ _ _ _ Hname)|].
    apply Forall_cons; [exact (name_or_unknown_truthy _ _ _ _ Htype)|].
    apply Forall_nil.
Qed.

(** X13. Every reply is of one of six kinds: 400 with status [ERROR]
    and no reason for a request without a file; 400 with status
    [INVALID] and reason "File validation failed"; 400 with status
    [INVALID] and reason "Security check failed"; 200 with status
    [UNKNOWN], [valid] false, one of three reasons and no receipt; the
    fixed 500 reply; or 200 with a receipt and no reason. *)
Theorem reply_taxonomy (w : World) :
  exists r,
    fst (run w) = Returned r
    /\ ((code r = 400
         /\ prop (body r) (jstr "status") = str "ERROR"
         /\ prop (body r) (jstr "reason") = JUndefined
         /\ request_file w = Returned None)
        \/ (code r = 400
            /\ prop (body r) (jstr "status") = str "INVALID"
            /\ prop (body r) (jstr "reason") = str "File validation failed")
        \/ (code r = 400
            /\ prop (body r) (jstr "status") = str "INVALID"
            /\ prop (body r) (jstr "reason") = str "Security check failed")
        \/ (code r = 200
            /\ prop (body r) (jstr "status") = str "UNKNOWN"
            /\ prop (body r) (jstr "valid") = JBool false
            /\ prop (body r) (jstr "receipt") = JUndefined
            /\ In (prop (body r) (jstr "reason"))
                 [str "No document ID found in metadata";
                  str "Document ID not recognized";
                  str "Verification service unavailable"])
        \/ (code r = 500 /\ r = reply_internal_error)
        \/ (code r = 200
            /\ prop (body r) (jstr "receipt") <> JUndefined
            /\ prop (body r) (jstr "reason") = JUndefined)).
Proof.
  destruct (run_served_reply w) as (r & Hrun & Hserved).
  exists r. split; [exact Hrun|].
  destruct Hserved.
  - do 4 right. left. split; reflexivity.
  - left. repeat split; try reflexivity; assumption.
  - do 4 right. left. split; reflexivity.
  - right. left. repeat split; reflexivity.
  - do 2 right. left. repeat split; reflexivity.
  - do 3 right. left. split; [reflexivity|]. split; [reflexivity|].
    split; [reflexivity|]. split; [reflexivity|]. left. reflexivity.
  - do 4 right. left. split; reflexivity.
  - do 4 right. left. split; reflexivity.
  - do 3 right. left. split; [reflexivity|]. split; [reflexivity|].
    split; [reflexivity|]. split; [reflexivity|]. right. left. reflexivity.
  - do 3 right. left. split; [reflexivity|]. split; [reflexivity|].
    split; [reflexivity|]. split; [reflexivity|]. right. right. left. reflexivity.
  - do 4 right. left. split; reflexivity.
  - do 4 right. left. split; reflexivity.
  - do 5 right.
    match goal with
    | Hbody : success_body _ _ _ = Returned _ |- _ =>
        apply success_body_shape in Hbody;
        destruct Hbody as (? & ? & ? & ? & ? & ? & ? & ? & ? & ? & ? & Hshape);
        destruct Hshape as (_ & _ & _ & _ & _ & _ & _ & _ & ->)
    end.
    split; [reflexivity|]. split; [|reflexivity].
    intros Hc. lazy in Hc. discriminate Hc.
Qed.

End PathProperties.

(* ================================================================== *)
(** * The receipt id *)
(* ================================================================== *)

Lemma hex_digit_is_hex (n : N) : (n < 16)%N -> is_hex_digit (hex_digit n) = true.
Proof.
  intros Hn. unfold is_hex_digit, hex_digit.
  destruct (n <? 10)%N eqn:E.
  - apply N.ltb_lt in E. apply orb_true_iff. left.
    apply andb_true_iff. split; apply N.leb_le; lia.
  - apply N.ltb_ge in E. apply orb_true_iff. right.
    apply andb_true_iff. split; apply N.leb_le; lia.
Qed.

Lemma hex_digit_injective (a b : N) :
  (a < 16)%N -> (b < 16)%N -> hex_digit a = hex_digit b -> a = b.
Proof.
  unfold hex_digit. intros Ha Hb.
  destruct (a <? 10)%N eqn:Ea; destruct (b <? 10)%N eqn:Eb;
    try apply N.ltb_lt in Ea; try apply N.ltb_ge in Ea;
    try apply N.ltb_lt in Eb; try apply N.ltb_ge in Eb; lia.
Qed.

Lemma byte_nibbles (x : byte) :
  (Byte.to_N x / 16 < 16)%N /\ (Byte.to_N x mod 16 < 16)%N.
Proof.
  pose proof (Byte.to_N_bounded x) as Hx. split.
  - apply N.Div0.div_lt_upper_bound. lia.
  - apply N.mod_lt. discriminate.
Qed.

Lemma to_N_injective (x y : byte) : Byte.to_N x = Byte.to_N y -> x = y.
Proof.
  intros H. pose proof (Byte.of_to_N x) as Hx. pose proof (Byte.of_to_N y) as Hy.
  rewrite H in Hx. congruence.
Qed.

(** Two hexadecimal digits per byte. *)
Lemma toString_hex_length (b : Buffer) :
  length (toString_hex b) = (2 * length b)%nat.
Proof.
  induction b as [|x b IH]; [reflexivity|].
  cbn [toString_hex flat_map app length] in *. fold (toString_hex b).
  rewrite IH. lia.
Qed.

Lemma toString_hex_digits (b : Buffer) :
  forallb is_hex_digit (toString_hex b) = true.
Proof.
  induction b as [|x b IH]; [reflexivity|].
  cbn [toString_hex flat_map app forallb]. fold (toString_hex b).
  destruct (byte_nibbles x) as [Hhi Hlo].
  now rewrite (hex_digit_is_hex _ Hhi), (hex_digit_is_hex _ Hlo), IH.
Qed.

(** The hexadecimal string determines the bytes. *)
Lemma toString_hex_injective (a b : Buffer) :
  toString_hex a = toString_hex b -> a = b.
Proof.
  revert b; induction a as [|x a IH]; intros [|y b]; try reflexivity;
    try discriminate.
  cbn [toString_hex flat_map app]. fold (toString_hex a) (toString_hex b).
  intros H. injection H as Hhi Hlo Hrest.
  destruct (byte_nibbles x) as [Hx1 Hx2]. destruct (byte_nibbles y) as [Hy1 Hy2].
  apply hex_digit_injective in Hhi; [|assumption ..].
  apply hex_digit_injective in Hlo; [|assumption ..].
  f_equal; [|now apply IH].
  apply to_N_injective.
  rewrite (N.div_mod (Byte.to_N x) 16), (N.div_mod (Byte.to_N y) 16) by discriminate.
  now rewrite Hhi, Hlo.
Qed.

Section ReceiptId.
Context {RT : Runtime}.

(** X9. The receipt id is [rcpt_] followed by the random bytes of the
    request in lower-case hexadecimal, two digits per byte (24 digits
    for 12 bytes); two replies have the same id exactly when their
    requests drew the same random bytes. *)
Theorem receipt_id_encodes_random_bytes (w1 w2 : World) (r1 r2 : Reply) :
  fst (run w1) = Returned r1 ->
  fst (run w2) = Returned r2 ->
  prop (body r1) (jstr "receipt") <> JUndefined ->
  prop (body r2) (jstr "receipt") <> JUndefined ->
  exists id1 id2,
    prop2 (body r1) (jstr "receipt") (jstr "id") = JStr id1
    /\ prop2 (body r2) (jstr "receipt") (jstr "id") = JStr id2
    /\ id1 = jstr "rcpt_" ++ toString_hex (randomBytes w1 12)
    /\ length id1 = (5 + 2 * length (randomBytes w1 12))%nat
    /\ forallb is_hex_digit (skipn 5 id1) = true
    /\ (id1 = id2 <-> randomBytes w1 12 = randomBytes w2 12).
Proof.
  intros Hr1 Hr2 Hreceipt1 Hreceipt2.
  destruct (run_served_reply w1) as (r1' & Hrun1 & Hserved1).
  destruct (run_served_reply w2) as (r2' & Hrun2 & Hserved2).
  rewrite Hrun1 in Hr1. injection Hr1 as <-.
  rewrite Hrun2 in Hr2. injection Hr2 as <-.
  destruct (Served_receipt w1 r1' (calls w1) Hserved1 Hreceipt1)
    as (? & b1 & ? & ? & res1 & _ & _ & _ & _ & _ & _ & _ & _ & Hbody1 & _).
  destruct (Served_receipt w2 r2' (calls w2) Hserved2 Hreceipt2)
    as (? & b2 & ? & ? & res2 & _ & _ & _ & _ & _ & _ & _ & _ & Hbody2 & _).
  apply success_body_shape in Hbody1
    as (? & ? & ? & ? & ? & ? & ? & ? & ? & ? & ? & Hshape1).
  destruct Hshape1 as (_ & _ & _ & _ & _ & _ & _ & _ & ->).
  apply success_body_shape in Hbody2
    as (? & ? & ? & ? & ? & ? & ? & ? & ? & ? & ? & Hshape2).
  destruct Hshape2 as (_ & _ & _ & _ & _ & _ & _ & _ & ->).
  exists (jstr "rcpt_" ++ toString_hex (randomBytes w1 12)),
         (jstr "rcpt_" ++ toString_hex (randomBytes w2 12)).
  split; [reflexivity|]. split; [reflexivity|]. split; [reflexivity|].
  split; [|split].
  - rewrite length_app, toString_hex_length. reflexivity.
  - change (skipn 5 (jstr "rcpt_" ++ toString_hex (randomBytes w1 12)))
      with (toString_hex (randomBytes w1 12)).
    apply toString_hex_digits.
  - split.
    + intros H. apply app_inv_head in H. now apply toString_hex_injective.
    + intros ->. reflexivity.
Qed.

End ReceiptId.

(* ================================================================== *)
(** * More on the validator, the extractor and the message *)
(* ================================================================== *)

Section MoreProperties.
Context {RT : Runtime}.

Local Arguments validate : simpl never.
Local Arguments securityScan : simpl never.
Local Arguments success_body : simpl never.
Local Arguments verifyUrl : simpl never.
Local Arguments extractMetadata : simpl never.

(** X1. [validate] accepts an upload exactly when it has at most 50 MiB,
    begins with the five bytes [%PDF-] and its lower-cased name ends in
    [.pdf]; nothing after the fifth byte is looked at. A result is valid
    exactly when it has no error, and an invalid one carries the error
    of one of the four checks. *)
Theorem validate_accepts_iff (buffer : Buffer) (filename : JSString) :
  (valid (validate buffer filename) = true
   <-> buffer_length buffer <= MAX_FILE_SIZE
       /\ (exists rest, buffer = Buffer_from "%PDF-" ++ rest)
       /\ (exists stem, toLowerCase filename = stem ++ jstr ".pdf"))
  /\ (valid (validate buffer filename) = true
      <-> error (validate buffer filename) = None)
  /\ (valid (validate buffer filename) = false
      <-> exists c, error (validate buffer filename) = Some (check_error c)).
Proof.
  rewrite validate_first_failure. unfold check_order. cbn [first_failure].
  pose proof (magic_check_passes_iff buffer filename) as Hmagic.
  assert (Hext : check_fails CheckExtension buffer filename = false
                 <-> exists stem, toLowerCase filename = stem ++ jstr ".pdf").
  { cbn [check_fails]. rewrite negb_false_iff. apply endsWith_spec. }
  assert (Hsize : check_fails CheckSize buffer filename = false
                  <-> buffer_length buffer <= MAX_FILE_SIZE)
    by (cbn [check_fails]; apply Z.ltb_ge).
  assert (Hempty : check_fails CheckEmptiness buffer filename = true
                   -> ~ exists rest, buffer = Buffer_from "%PDF-" ++ rest).
  { destruct buffer; [|discriminate]. intros _ [rest H]. discriminate H. }
  destruct (check_fails CheckSize buffer filename) eqn:E1.
  { cbn [invalid valid error]. split; [|split].
    - split; [discriminate|]. intros (H & _). apply Hsize in H. discriminate H.
    - split; discriminate.
    - split; [now exists CheckSize | reflexivity]. }
  destruct (check_fails CheckEmptiness buffer filename) eqn:E2.
  { cbn [invalid valid error]. split; [|split].
    - split; [discriminate|]. intros (_ & H & _). now apply Hempty in H.
    - split; discriminate.
    - split; [now exists CheckEmptiness | reflexivity]. }
  destruct (check_fails CheckMagicNumber buffer filename) eqn:E3.
  { cbn [invalid valid error]. split; [|split].
    - split; [discriminate|]. intros (_ & H & _). apply Hmagic in H.
      discriminate H.
    - split; discriminate.
    - split; [now exists CheckMagicNumber | reflexivity]. }
  destruct (check_fails CheckExtension buffer filename) eqn:E4;
    cbn [invalid valid error]; (split; [|split]).
  - split; [discriminate|]. intros (_ & _ & H). apply Hext in H. discriminate H.
  - split; discriminate.
  - split; [now exists CheckExtension | reflexivity].
  - split; [|reflexivity]. intros _. split; [now apply Hsize|].
    split; [now apply Hmagic | now apply Hext].
  - split; reflexivity.
  - split; [discriminate|]. intros [c Hc]. discriminate Hc.
Qed.

(** What the extractor returns when the parser gives an object. *)
Lemma identifiers_of_object (buffer : Buffer) (props : list (JSString * JSValue Number)) :
  pdfjs_info buffer = Returned (JObj props) ->
  identifiers buffer
  = {| documentId := js_or (lookup (jstr "Subject") props) JUndefined;
       institutionId := js_or (lookup (jstr "Creator") props) JUndefined;
       documentHash := js_or (lookup (jstr "Keywords") props) JUndefined;
       signature := js_or (lookup (jstr "Producer") props) JUndefined |}.
Proof.
  intros Hinfo.
  unfold identifiers, extractMetadata, try_catch, bind, call, lift, emit, ret.
  rewrite Hinfo. reflexivity.
Qed.

Lemma js_or_undefined_cases (a : JSValue Number) :
  js_or a JUndefined = JUndefined \/ truthy (js_or a JUndefined) = true.
Proof. unfold js_or. destruct (truthy a) eqn:E; auto. Qed.

(** X2. Each of the four identifiers the extractor returns is absent or
    a truthy value: an empty string, [null], [false] or zero in the
    info dictionary counts as absent. When the parser gives an info
    dictionary, the document id is its truthy [Subject], the institution
    id its [Creator], the hash its [Keywords] and the signature its
    [Producer]. *)
Theorem identifiers_absent_or_truthy (buffer : Buffer) :
  Forall (fun v => v = JUndefined \/ truthy v = true)
    [documentId (identifiers buffer); institutionId (identifiers buffer);
     documentHash (identifiers buffer); signature (identifiers buffer)]
  /\ (forall props,
        pdfjs_info buffer = Returned (JObj props) ->
        Forall (fun kf : JSString * (Metadata -> JSValue Number) =>
                  (truthy (lookup (fst kf) props) = true ->
                   snd kf (identifiers buffer) = lookup (fst kf) props)
                  /\ (truthy (lookup (fst kf) props) = false ->
                      snd kf (identifiers buffer) = JUndefined))
          [(jstr "Subject", documentId); (jstr "Creator", institutionId);
           (jstr "Keywords", documentHash); (jstr "Producer", signature)]).
Proof.
  split.
  - unfold identifiers, extractMetadata, try_catch, bind, call, lift, emit, ret.
    destruct (pdfjs_info buffer) as [info|e]; cbn [fst snd];
      [|repeat (apply Forall_cons; [now left|]); apply Forall_nil].
    destruct (get info (jstr "Subject")) as [a1|e1]; cbn [fst snd];
      [|repeat (apply Forall_cons; [now left|]); apply Forall_nil].
    destruct (get info (jstr "Creator")) as [a2|e2]; cbn [fst snd];
      [|repeat (apply Forall_cons; [now left|]); apply Forall_nil].
    destruct (get info (jstr "Keywords")) as [a3|e3]; cbn [fst snd];
      [|repeat (apply Forall_cons; [now left|]); apply Forall_nil].
    destruct (get info (jstr "Producer")) as [a4|e4]; cbn [fst snd];
      [|repeat (apply Forall_cons; [now left|]); apply Forall_nil].
    cbn [documentId institutionId documentHash signature].
    repeat (apply Forall_cons; [apply js_or_undefined_cases|]). apply Forall_nil.
  - intros props Hinfo. rewrite (identifiers_of_object buffer props Hinfo).
    cbn [documentId institutionId documentHash signature].
    repeat (apply Forall_cons;
            [cbn [fst snd documentId institutionId documentHash signature];
             unfold js_or; split; intros ->; reflexivity|]).
    apply Forall_nil.
Qed.

(** X10. When the authority answers with a status in 200-299 and the
    JSON body [null], the reply is the 500 one. For any other JSON
    body, an array or a number as well as an object, the reply has code
    200 and copies [status] and [valid] as the body has them (absent
    when it has none) whenever [getStatusMessage] and
    [mapVerificationDetails] return, and is the 500 one when either
    throws. Both return when the body has no truthy [errors]. *)
Theorem null_answer_is_internal_error (w : World) (data : Upload) (buffer : Buffer)
    (url : JSString) (verifyResponse : FetchResponse) (result : JSValue Number) :
  submission w data buffer ->
  valid (validate buffer (upload_filename data)) = true ->
  safe (securityScan buffer) = true ->
  documentId (identifiers buffer) <> JUndefined ->
  verifyUrl (identifiers buffer) = Returned url ->
  fetch w url = Returned verifyResponse ->
  response_ok verifyResponse = true ->
  response_json verifyResponse = Returned result ->
  (result = JNull \/ result = JUndefined ->
   fst (run w) = Returned reply_internal_error
   /\ code reply_internal_error = 500)
  /\ (result <> JNull -> result <> JUndefined ->
      (forall msg details,
         getStatusMessage result = Returned msg ->
         mapVerificationDetails result = Returned details ->
         exists payload,
           fst (run w) = Returned {| code := 200; body := payload |}
           /\ prop payload (jstr "status") = prop result (jstr "status")
           /\ prop payload (jstr "valid") = prop result (jstr "valid")
           /\ prop payload (jstr "message") = JStr msg)
      /\ ((exists e, getStatusMessage result = Thrown e)
          \/ (exists e, mapVerificationDetails result = Thrown e) ->
          fst (run w) = Returned reply_internal_error)
      /\ (truthy (prop result (jstr "errors")) = false ->
          exists payload,
            fst (run w) = Returned {| code := 200; body := payload |}
            /\ prop payload (jstr "status") = prop result (jstr "status")
            /\ prop payload (jstr "valid") = prop result (jstr "valid"))).
Proof.
  intros Hsub Hvalid Hsafe Hdoc Hurl Hfetch Hok Hjson.
  rewrite (run_verified_path w data buffer url verifyResponse result) by assumption.
  split.
  - intros [-> | ->]; split; reflexivity.
  - intros Hnull Hundef.
    assert (Hget : get result (jstr "status")
                   = Returned (prop result (jstr "status"))).
    { unfold prop. destruct result; try reflexivity; contradiction. }
    pose proof (success_body_fields w (identifiers buffer) result _ _ Hget) as Hbody.
    split; [|split].
    + intros msg details Hmsg Hdetails. rewrite Hmsg, Hdetails in Hbody.
      destruct Hbody as (payload & Hbody & Hstatus & Hv & Hmessage & _).
      rewrite Hbody. exists payload. auto.
    + intros [[e He] | [e He]]; rewrite He in Hbody.
      * destruct Hbody as [e' ->]. reflexivity.
      * destruct (getStatusMessage result); destruct Hbody as [e' ->]; reflexivity.
    + intros Hnone.
      assert (Herrs : has_errors result = Returned false).
      { rewrite (has_errors_prop result _ _ Hget), Hnone. reflexivity. }
      destruct (getStatusMessage_returns result _ _ Hget Herrs) as [msg Hmsg].
      pose proof (mapVerificationDetails_outcome result _ _ Hget) as Hdetails.
      rewrite Herrs in Hdetails. destruct Hdetails as [details Hdetails].
      rewrite Hmsg, Hdetails in Hbody.
      destruct Hbody as (payload & Hbody & Hstatus & Hv & _).
      rewrite Hbody. exists payload. auto.
Qed.

(** X11. [mapVerificationDetails], for an answer that is not [null] and
    whose [errors] is a list or absent, gives an object that always
    begins with [isValid] ([false] unless [valid] is truthy), then has
    [revocation] only for status [REVOKED] with a truthy [revokedAt],
    [checks] only when the answer has checks, and [errors] only when
    the list has an element, in this order and nothing else. *)
Theorem mapVerificationDetails_shape (result x : JSValue Number) (k : JSString) :
  get result k = Returned x ->
  list_or_absent (prop result (jstr "errors")) ->
  mapVerificationDetails result
  = Returned
      (JObj
         ([(jstr "isValid",
            if truthy (prop result (jstr "valid"))
            then prop result (jstr "valid") else JBool false)]
          ++ (if is_string (prop result (jstr "status")) (jstr "REVOKED")
                 && truthy (prop result (jstr "revokedAt"))
              then [(jstr "revocation",
                     JObj [(jstr "revokedAt", prop result (jstr "revokedAt"));
                           (jstr "revokedBy", prop result (jstr "revokedBy"));
                           (jstr "reason", prop result (jstr "reason"))])]
              else [])
          ++ (if truthy (prop result (jstr "checks"))
              then [(jstr "checks", prop result (jstr "checks"))]
              else [])
          ++ (match prop result (jstr "errors") with
              | JArr (_ :: _) => [(jstr "errors", prop result (jstr "errors"))]
              | _ => []
              end))).
Proof.
  intros H Hlist.
  assert (Herrs : has_errors result
                  = Returned (match prop result (jstr "errors") with
                              | JArr (_ :: _) => true
                              | _ => false
                              end)).
  { pose proof (get_prop _ _ (jstr "errors") _ H) as Hget.
    destruct Hlist as [Hu | [Hn | [es Hes]]].
    - rewrite Hu in *. now apply (has_errors_absent result JUndefined); auto.
    - rewrite Hn in *. now apply (has_errors_absent result JNull); auto.
    - rewrite Hes in *. rewrite (has_errors_list result es Hget).
      destruct es; reflexivity. }
  unfold mapVerificationDetails.
  rewrite (get_prop _ _ (jstr "status") _ H), (get_prop _ _ (jstr "valid") _ H),
          (get_prop _ _ (jstr "errors") _ H), (get_prop _ _ (jstr "checks") _ H),
          (get_prop _ _ (jstr "revokedAt") _ H), (get_prop _ _ (jstr "revokedBy") _ H),
          (get_prop _ _ (jstr "reason") _ H), Herrs.
  cbn [obind]. unfold js_or, set_new.
  destruct (is_string (prop result (jstr "status")) (jstr "REVOKED"));
    cbn [obind andb];
    try destruct (truthy (prop result (jstr "revokedAt"))); cbn [obind];
    destruct (truthy (prop result (jstr "checks"))); cbn [obind];
    destruct (prop result (jstr "errors")) as [| | | | |[|e es]|]; reflexivity.
Qed.

(** X12. When [errors] is not a list: for a non-empty string the message
    names its first character only, and for [true] or a number, which
    have no length, the message is the tampered one. *)
Theorem message_for_errors_that_are_no_list
    (result status v errors : JSValue Number) :
  get result (jstr "status") = Returned status ->
  get result (jstr "valid") = Returned v ->
  get result (jstr "errors") = Returned errors ->
  is_string status (jstr "REVOKED") = false ->
  is_string status (jstr "SUPERSEDED") = false ->
  truthy v = false ->
  (forall c rest, errors = JStr (c :: rest) ->
     getStatusMessage result = Returned (jstr "Invalid Document - " ++ [c]))
  /\ (forall n, errors = JBool true \/ errors = JNum n ->
        getStatusMessage result = Returned msg_tampered).
Proof.
  intros Hstatus Hvalid Herrors Hrevoked Hsuperseded Hv.
  assert (Hrest : getStatusMessage result
                  = let! some_errors := has_errors result in
                    if some_errors then
                      let! first := get0 errors in
                      let! first := toStringJS first in
                      Returned (jstr "Invalid Document - " ++ first)
                    else Returned msg_tampered).
  { unfold getStatusMessage. rewrite Hstatus, Hvalid, Herrors. cbn [obind].
    destruct (is_string status (jstr "ACTIVE")); cbn [obind];
      rewrite ?Hv, Hrevoked, Hsuperseded; reflexivity. }
  rewrite Hrest. unfold has_errors. rewrite Herrors. cbn [obind].
  split.
  - intros c rest ->. cbn [truthy obind get].
    rewrite (proj2 (jseqb_eq _ _) eq_refl). cbn [gt0].
    rewrite number_gt0_of_Z. reflexivity.
  - intros n [-> | ->]; cbn [truthy obind get gt0].
    + reflexivity.
    + destruct (number_toBoolean n); reflexivity.
Qed.

End MoreProperties.

Section ScanMonotone.
Context {RT : Runtime}.

Lemma securityScan_listed (buffer : Buffer) :
  listed (securityScan buffer)
  = map threat_label
      (filter (marker_matches (toLowerCase (toString_utf8 buffer))) threat_order).
Proof. rewrite securityScan_reading. apply scan_reading_listed. Qed.

Lemma marker_matches_inside (text text' pre post : JSString) (k : ThreatKind) :
  text' = pre ++ text ++ post ->
  marker_matches text k = true -> marker_matches text' k = true.
Proof.
  intros -> Hk. apply marker_matches_spec in Hk as (m & p & q & Hm & ->).
  apply marker_matches_spec. exists m, (pre ++ p), (q ++ post).
  split; [exact Hm|]. now rewrite <- !app_assoc.
Qed.

(** X14. The scan looks for the markers anywhere in the text, with no
    regard for what surrounds them: when the decoded, lower-cased text
    of one buffer occurs inside that of another, every threat listed
    for the first is listed for the second, and the second is unsafe
    when the first is. *)
Theorem scan_is_monotone (inner outer : Buffer) :
  (exists pre post,
     toLowerCase (toString_utf8 outer)
     = pre ++ toLowerCase (toString_utf8 inner) ++ post) ->
  (forall t, In t (listed (securityScan inner)) ->
             In t (listed (securityScan outer)))
  /\ (safe (securityScan inner) = false -> safe (securityScan outer) = false).
Proof.
  intros (pre & post & Htext).
  assert (Hlisted : forall t, In t (listed (securityScan inner)) ->
                              In t (listed (securityScan outer))).
  { intros t. rewrite !securityScan_listed. intros Hin.
    apply in_map_iff in Hin as (k & <- & Hk). apply filter_In in Hk as [Hk1 Hk2].
    apply in_map. apply filter_In. split; [exact Hk1|].
    exact (marker_matches_inside _ _ pre post k Htext Hk2). }
  split; [exact Hlisted|].
  intros Hunsafe.
  destruct (unsafe_scan_lists_threats inner Hunsafe) as (l & Hl & Hne & _).
  destruct l as [|t l]; [contradiction|].
  assert (Hin : In t (listed (securityScan outer))).
  { apply Hlisted. unfold listed. rewrite Hl. now left. }
  destruct (safe (securityScan outer)) eqn:Hsafe; [|reflexivity].
  exfalso. rewrite securityScan_reading in Hsafe.
  rewrite securityScan_listed in Hin.
  apply scan_reading_safe in Hsafe. rewrite Hsafe in Hin. exact Hin.
Qed.

End ScanMonotone.

(* ================================================================== *)
(** * The properties above on the examples *)
(* ================================================================== *)

(** The reply to the PDF with a script. *)
Lemma security_reply_lists_threats_witness :
  code (reply_of world_script) = 400
  /\ prop (body (reply_of world_script)) (jstr "status") = str "INVALID".
Proof.
  destruct (security_reply_lists_threats world_script (reply_of world_script)
              eq_refl eq_refl) as (Hcode & Hstatus & _).
  split; [exact Hcode | exact Hstatus].
Defined.

(** The reply to the GIF named [doc.pdf]. *)
Lemma validation_reply_names_first_failure_witness :
  code (reply_of world_gif) = 400
  /\ prop (body (reply_of world_gif)) (jstr "status") = str "INVALID".
Proof.
  destruct (validation_reply_names_first_failure world_gif (reply_of world_gif)
              eq_refl eq_refl) as (Hcode & Hstatus & _).
  split; [exact Hcode | exact Hstatus].
Defined.

(** The reply for the active credential. *)
Lemma receipt_agrees_with_reply_witness :
  prop2 (body (reply_of world_active)) (jstr "receipt") (jstr "documentId")
  = prop (body (reply_of world_active)) (jstr "documentId")
  /\ (prop2 (body (reply_of world_active)) (jstr "receipt") (jstr "result")
      = str "VALID"
      <-> truthy (prop (body (reply_of world_active)) (jstr "valid")) = true).
Proof.
  destruct (receipt_agrees_with_reply world_active (reply_of world_active)
              eq_refl ltac:(vm_compute; discriminate))
    as (Hid & _ & _ & _ & Hresult & _).
  split; [exact Hid | exact Hresult].
Defined.

(** The active credential verified twice, with different random bytes:
    two receipt ids. *)
Lemma receipt_id_encodes_random_bytes_witness :
  exists id1 id2,
    prop2 (body (reply_of world_active)) (jstr "receipt") (jstr "id") = JStr id1
    /\ prop2 (body (reply_of world_active_again)) (jstr "receipt") (jstr "id")
       = JStr id2
    /\ length id1 = 29%nat
    /\ id1 <> id2.
Proof.
  destruct (receipt_id_encodes_random_bytes world_active world_active_again
              (reply_of world_active) (reply_of world_active_again)
              eq_refl eq_refl
              ltac:(vm_compute; discriminate) ltac:(vm_compute; discriminate))
    as (id1 & id2 & H1 & H2 & _ & Hlen & _ & Hsame).
  exists id1, id2. split; [exact H1|]. split; [exact H2|].
  split; [exact Hlen|].
  intros Heq. apply Hsame in Heq. vm_compute in Heq. discriminate Heq.
Defined.

(** The authority answering [null], answering an empty array, and
    rejecting with an error that has no string form. *)
Lemma null_answer_is_internal_error_witness :
  fst (run world_null) = Returned reply_internal_error
  /\ (exists payload,
        fst (run world_array) = Returned {| code := 200; body := payload |}
        /\ prop payload (jstr "status") = JUndefined)
  /\ fst (run world_unprintable) = Returned reply_internal_error.
Proof.
  split; [|split].
  - exact (proj1 (proj1 (null_answer_is_internal_error world_null
                    (upload_of (jstr "diploma.pdf") sample_pdf) sample_pdf
                    (jstr "http://localhost:3000/api/documents/doc_7f3a/verify-public")
                    (Build_FetchResponse (RT := rt_credential) 200 (Returned JNull))
                    JNull
                    (conj eq_refl eq_refl) eq_refl eq_refl
                    ltac:(vm_compute; discriminate) eq_refl eq_refl eq_refl eq_refl)
                   (or_introl eq_refl))).
  - destruct (proj2 (proj2 (proj2 (null_answer_is_internal_error world_array
                    (upload_of (jstr "diploma.pdf") sample_pdf) sample_pdf
                    (jstr "http://localhost:3000/api/documents/doc_7f3a/verify-public")
                    (Build_FetchResponse (RT := rt_credential) 200
                       (Returned (JArr [])))
                    (JArr [])
                    (conj eq_refl eq_refl) eq_refl eq_refl
                    ltac:(vm_compute; discriminate) eq_refl eq_refl eq_refl eq_refl)
                ltac:(discriminate) ltac:(discriminate))) eq_refl)
      as (payload & Hrun & Hstatus & _).
    exists payload. split; [exact Hrun | exact Hstatus].
  - exact (proj1 (proj2 (proj2 (null_answer_is_internal_error world_unprintable
                    (upload_of (jstr "diploma.pdf") sample_pdf) sample_pdf
                    (jstr "http://localhost:3000/api/documents/doc_7f3a/verify-public")
                    (Build_FetchResponse (RT := rt_credential) 200
                       (Returned answer_unprintable))
                    answer_unprintable
                    (conj eq_refl eq_refl) eq_refl eq_refl
                    ltac:(vm_compute; discriminate) eq_refl eq_refl eq_refl eq_refl)
                ltac:(discriminate) ltac:(discriminate)))
             (or_introl (ex_intro _ TypeError_primitive eq_refl))).
Defined.

(** The details of a revoked document. *)
Lemma mapVerificationDetails_shape_witness :
  mapVerificationDetails (RT := rt_credential) answer_revoked
  = Returned
      (JObj [(jstr "isValid", JBool false);
             (jstr "revocation",
              JObj [(jstr "revokedAt", JStr (jstr "2024-03-01T00:00:00.000Z"));
                    (jstr "revokedBy", JStr (jstr "registrar"));
                    (jstr "reason", JStr (jstr "Issued in error"))]);
             (jstr "errors", JArr [JStr (jstr "Document revoked")])]).
Proof.
  exact (mapVerificationDetails_shape (RT := rt_credential) answer_revoked
           (JStr (jstr "REVOKED")) (jstr "status") eq_refl
           (or_intror (or_intror (ex_intro _ _ eq_refl)))).
Defined.

(** An answer whose [errors] is the string "Signature mismatch". *)
Lemma message_for_errors_that_are_no_list_witness :
  getStatusMessage (RT := rt_credential) answer_errors_string
  = Returned (jstr "Invalid Document - S").
Proof.
  exact (proj1 (message_for_errors_that_are_no_list (RT := rt_credential)
                  answer_errors_string (JStr (jstr "ACTIVE")) (JBool false)
                  (JStr (jstr "Signature mismatch"))
                  eq_refl eq_refl eq_refl eq_refl eq_refl eq_refl)
           83%N (jstr "ignature mismatch") eq_refl).
Defined.

(** The three bytes [/AA] occur, lower-cased, in the name of a subset
    font: the PDF that embeds the font is unsafe. *)
Lemma scan_is_monotone_witness :
  safe (securityScan (RT := rt_rejecting) font_pdf) = false.
Proof.
  apply (proj2 (scan_is_monotone (RT := rt_rejecting) (Buffer_from "/AA") font_pdf
                  (ex_intro _ (jstr "%pdf-1.4 << /type /font /basefont ")
                     (ex_intro _ (jstr "aaaa+helvetica >>") eq_refl)))).
  vm_compute. reflexivity.
Defined.
